(** * voicechat backend: a shallow embedding of the relay's pure core

    The development follows [backend/server.py] (session registry, admission
    control, authentication, the two relay legs and the function-call
    interceptor) and [backend/weather_tool.py] (the tool executor).

    Conventions of the embedding.
    - A Python [str] is a Rocq [string], one [ascii] per code point; only
      code points below U+0100 are represented.
    - A [datetime] is an integer number of microseconds (its resolution);
      [(a - b).total_seconds() < n] is [a - b < n * 10^6].
    - Values decoded from JSON are the type [json]; a [dict] is its item
      list in insertion order, keys pairwise distinct.
    - Python exceptions are values of type [exn]; code that can raise lives
      in [result] (pure) or in the monad [M] (state and exceptions).
    - [json.loads] belongs to the Python runtime: it is a section variable,
      and [Decoder.loads] is an executable instance of it.
    - Logging has no effect on the state and is left out. *)

From Stdlib Require Import ZArith String Ascii List DecimalString.
From stdpp Require Import base gmap strings list.

Local Open Scope string_scope.
Local Open Scope Z_scope.
Set Warnings "-clear-no-such-hyp".

(** ** Python strings *)

Module PyStr.

Definition chr (n : nat) : string := String (ascii_of_nat n) EmptyString.

(** The double quote character, U+0022. *)
Definition dq : string := chr 34.

(** The degree sign, U+00B0. *)
Definition deg : string := chr 176.

Definition code (c : ascii) : nat := nat_of_ascii c.

(** [str(n)] for an [int]. *)
Definition of_Z (z : Z) : string := NilZero.string_of_int (Z.to_int z).

(** [s.startswith(p)] *)
Definition startswith (s p : string) : bool := String.prefix p s.

(** [str.isspace] on one code point below U+0100. *)
Definition isspace (c : ascii) : bool :=
  let n := code c in
  ((9 <=? n) && (n <=? 13) || (28 <=? n) && (n <=? 32)
   || (n =? 133) || (n =? 160))%nat.

Fixpoint lstrip (s : string) : string :=
  match s with
  | EmptyString => EmptyString
  | String c s' => if isspace c then lstrip s' else s
  end.

Fixpoint rstrip (s : string) : string :=
  match s with
  | EmptyString => EmptyString
  | String c s' =>
      match rstrip s' with
      | EmptyString => if isspace c then EmptyString else String c EmptyString
      | r => String c r
      end
  end.

(** [s.strip()] *)
Definition strip (s : string) : string := rstrip (lstrip s).

(** [s.replace(old, new)] for a non-empty [old]: occurrences are found
    left to right and do not overlap.  [skip] counts the characters of an
    occurrence still to be dropped. *)
Fixpoint replace_from (old new s : string) (skip : nat) : string :=
  match s with
  | EmptyString => EmptyString
  | String c s' =>
      match skip with
      | S k => replace_from old new s' k
      | O =>
          if String.prefix old s
          then new ++ replace_from old new s' (String.length old - 1)
          else String c (replace_from old new s' 0)
      end
  end.

(** With an empty [old], Python inserts [new] before every character and
    at the end. *)
Fixpoint intersperse (new s : string) : string :=
  match s with
  | EmptyString => new
  | String c s' => new ++ String c (intersperse new s')
  end.

Definition replace (s old new : string) : string :=
  match old with
  | EmptyString => intersperse new s
  | _ => replace_from old new s 0
  end.

(** [str.lower] on one code point below U+0100: A-Z and the Latin-1
    capitals U+00C0-U+00DE except the multiplication sign U+00D7. *)
Definition lower_char (c : ascii) : ascii :=
  let n := code c in
  if ((65 <=? n) && (n <=? 90)
      || (192 <=? n) && (n <=? 222) && negb (n =? 215))%nat
  then ascii_of_nat (n + 32) else c.

Fixpoint lower (s : string) : string :=
  match s with
  | EmptyString => EmptyString
  | String c s' => String (lower_char c) (lower s')
  end.

(** [sub in s] *)
Fixpoint contains (s sub : string) : bool :=
  String.prefix sub s
  || match s with
     | EmptyString => false
     | String _ s' => contains s' sub
     end.

(** Is every character of [s] whitespace?  True of the empty string. *)
Fixpoint all_space (s : string) : bool :=
  match s with
  | EmptyString => true
  | String c s' => isspace c && all_space s'
  end.

(** [s[:n]] *)
Definition take (n : nat) (s : string) : string := String.substring 0 n s.

Definition hex_digit (n : nat) : string :=
  String.substring n 1 "0123456789abcdef".

(** ['{0:04x}'.format(n)] for [n < 256]. *)
Definition hex4 (n : nat) : string :=
  "00" ++ hex_digit (n / 16) ++ hex_digit (n mod 16).

End PyStr.

(** ** JSON values and [json.dumps] *)

(** A [float] is represented by its [repr], the shortest decimal that
    round-trips ("1.5", "-0.0", "inf", "nan"). *)
#[warnings="-register-all"] Inductive json : Type :=
| JNull
| JBool (b : bool)
| JInt (z : Z)
| JFloat (repr : string)
| JStr (s : string)
| JList (items : list json)
| JDict (items : list (string * json)).

Module Json.

Definition escape_char (c : ascii) : string :=
  let n := PyStr.code c in
  if (n =? 34)%nat then "\" ++ PyStr.dq
  else if (n =? 92)%nat then "\\"
  else if (n =? 10)%nat then "\n"
  else if (n =? 13)%nat then "\r"
  else if (n =? 9)%nat then "\t"
  else if (n =? 8)%nat then "\b"
  else if (n =? 12)%nat then "\f"
  else if ((32 <=? n) && (n <=? 126))%nat then String c EmptyString
  else "\u" ++ PyStr.hex4 n.

Fixpoint escape (s : string) : string :=
  match s with
  | EmptyString => EmptyString
  | String c s' => escape_char c ++ escape s'
  end.

(** [json.encoder.py_encode_basestring_ascii] *)
Definition encode_str (s : string) : string := PyStr.dq ++ escape s ++ PyStr.dq.

Definition encode_float (repr : string) : string :=
  if String.eqb repr "nan" then "NaN"
  else if String.eqb repr "inf" then "Infinity"
  else if String.eqb repr "-inf" then "-Infinity"
  else repr.

(** [json.dumps(v)] with the default separators [", "] and [": "] and
    [ensure_ascii=True]. *)
Fixpoint dumps (v : json) : string :=
  match v with
  | JNull => "null"
  | JBool true => "true"
  | JBool false => "false"
  | JInt z => PyStr.of_Z z
  | JFloat r => encode_float r
  | JStr s => encode_str s
  | JList l =>
      "[" ++
      (fix elems (l : list json) : string :=
         match l with
         | [] => ""
         | x :: rest =>
             match rest with
             | [] => dumps x
             | _ => dumps x ++ ", " ++ elems rest
             end
         end) l ++ "]"
  | JDict d =>
      "{" ++
      (fix members (d : list (string * json)) : string :=
         match d with
         | [] => ""
         | (k, x) :: rest =>
             match rest with
             | [] => encode_str k ++ ": " ++ dumps x
             | _ => encode_str k ++ ": " ++ dumps x ++ ", " ++ members rest
             end
         end) d ++ "}"
  end.

End Json.

(** ** Exceptions *)

Inductive exn_class :=
| JSONDecodeError | AttributeError | TypeError | KeyError | ValueError
| RecursionError | ConnectionClosed.

(** An exception: its class and [str(e)]. Every class above derives from
    [Exception]. *)
Record exn := Exc { exn_cls : exn_class; exn_str : string }.

Inductive result (A : Type) : Type :=
| Ok (a : A)
| Raise (e : exn).
Arguments Ok {A} a.
Arguments Raise {A} e.

#[global] Instance result_ret : MRet result := fun A a => Ok a.
#[global] Instance result_bind : MBind result := fun A B f m =>
  match m with
  | Ok a => f a
  | Raise e => Raise e
  end.

(** ** Python operations on decoded values *)

Module Py.

(** [type(v).__name__] *)
Definition type_name (v : json) : string :=
  match v with
  | JNull => "NoneType"
  | JBool _ => "bool"
  | JInt _ => "int"
  | JFloat _ => "float"
  | JStr _ => "str"
  | JList _ => "list"
  | JDict _ => "dict"
  end.

(** [bool(v)]: [None], [False], zero, and the empty string, list and dict
    are false. *)
Definition truthy (v : json) : bool :=
  match v with
  | JNull => false
  | JBool b => b
  | JInt z => negb (z =? 0)
  | JFloat r => negb (String.eqb r "0.0" || String.eqb r "-0.0")
  | JStr s => negb (String.eqb s "")
  | JList l => match l with [] => false | _ => true end
  | JDict d => match d with [] => false | _ => true end
  end.

(** [v == s] for a string literal [s]. *)
Definition eq_str (v : json) (s : string) : bool :=
  match v with
  | JStr t => String.eqb t s
  | _ => false
  end.

(** [str(v)] for the hashable values; lists and dicts, the unhashable
    ones, have none here. *)
Definition str_of_hashable (v : json) : option string :=
  match v with
  | JNull => Some "None"
  | JBool true => Some "True"
  | JBool false => Some "False"
  | JInt z => Some (PyStr.of_Z z)
  | JFloat r => Some r
  | JStr s => Some s
  | JList _ | JDict _ => None
  end.

Definition no_attribute (v : json) (attr : string) : exn :=
  Exc AttributeError
      ("'" ++ type_name v ++ "' object has no attribute '" ++ attr ++ "'").

Fixpoint assoc (d : list (string * json)) (k : string) : option json :=
  match d with
  | [] => None
  | (k', x) :: rest => if String.eqb k' k then Some x else assoc rest k
  end.

(** [v.get(k, default)]: only a dict has [get]. *)
Definition get (v : json) (k : string) (default : json) : result json :=
  match v with
  | JDict d => Ok (match assoc d k with Some x => x | None => default end)
  | _ => Raise (no_attribute v "get")
  end.

(** [v.lower()]: only a str has [lower]. *)
Definition lower (v : json) : result string :=
  match v with
  | JStr s => Ok (PyStr.lower s)
  | _ => Raise (no_attribute v "lower")
  end.

End Py.

(** ** The tool executor ([weather_tool.py]) *)

Module Weather.

(** [WEATHER_DATA]: city -> (temp_c, condition, humidity, wind_kph). *)
Definition WEATHER_DATA : list (string * (Z * string * Z * Z)) :=
  [ ("seattle", (8, "Rainy", 85, 15));
    ("new york", (12, "Partly Cloudy", 60, 20));
    ("los angeles", (22, "Sunny", 40, 10));
    ("london", (10, "Overcast", 75, 18));
    ("paris", (14, "Cloudy", 65, 12));
    ("tokyo", (16, "Clear", 55, 8));
    ("sydney", (25, "Sunny", 50, 14));
    ("dubai", (32, "Hot and Sunny", 30, 5));
    ("mumbai", (28, "Humid", 80, 10));
    ("toronto", (5, "Snowy", 70, 25));
    ("san francisco", (15, "Foggy", 72, 16));
    ("chicago", (7, "Windy", 55, 35));
    ("miami", (27, "Sunny", 75, 12));
    ("denver", (10, "Clear", 35, 8));
    ("boston", (9, "Cloudy", 62, 18)) ].

Fixpoint lookup_city (table : list (string * (Z * string * Z * Z))) (k : string)
  : option (Z * string * Z * Z) :=
  match table with
  | [] => None
  | (k', row) :: rest => if String.eqb k' k then Some row else lookup_city rest k
  end.

(** [(celsius * 9 // 5) + 32]; [//] rounds down, as [Z.div] does. *)
Definition celsius_to_fahrenheit (celsius : Z) : Z := celsius * 9 / 5 + 32.

(** [get_weather_for_city(city, unit)].  The first statement,
    [city.lower()], raises unless [city] is a str. *)
Definition get_weather_for_city (city unit : json) : result json :=
  match city with
  | JStr c =>
      let city_lower := PyStr.lower c in
      let fahrenheit := Py.eq_str unit "fahrenheit" in
      match lookup_city WEATHER_DATA city_lower with
      | Some (temp_c, condition, humidity, wind_kph) =>
          let temp := if fahrenheit then celsius_to_fahrenheit temp_c else temp_c in
          let unit_symbol := PyStr.deg ++ (if fahrenheit then "F" else "C") in
          Ok (JDict
            [ ("city", city);
              ("temperature", JInt temp);
              ("unit", JStr unit_symbol);
              ("condition", JStr condition);
              ("humidity", JStr (PyStr.of_Z humidity ++ "%"));
              ("wind", JStr (PyStr.of_Z wind_kph ++ " km/h"));
              ("description", JStr
                 ("The weather in " ++ c ++ " is " ++ PyStr.lower condition
                  ++ " with a temperature of " ++ PyStr.of_Z temp ++ unit_symbol
                  ++ ". Humidity is at " ++ PyStr.of_Z humidity
                  ++ "% with winds of " ++ PyStr.of_Z wind_kph ++ " km/h.")) ])
      | None =>
          let default_temp := if fahrenheit then 68 else 20 in
          let default_unit := PyStr.deg ++ (if fahrenheit then "F" else "C") in
          Ok (JDict
            [ ("city", city);
              ("temperature", JInt default_temp);
              ("unit", JStr default_unit);
              ("condition", JStr "Moderate");
              ("humidity", JStr "50%");
              ("wind", JStr "10 km/h");
              ("description", JStr
                 ("Weather data for " ++ c ++ ": Temperature is "
                  ++ PyStr.of_Z default_temp ++ default_unit
                  ++ " with moderate conditions.")) ])
      end
  | _ => Raise (Py.no_attribute city "lower")
  end.

(** [{"error": msg}] *)
Definition error_object (msg : string) : json := JDict [("error", JStr msg)].

Section Tools.

(** [json.loads] on a str. *)
Variable json_loads : string -> result json.

(** [json.loads(v)] on any value: it wants a str. *)
Definition loads (v : json) : result json :=
  match v with
  | JStr s => json_loads s
  | _ => Raise (Exc TypeError
                  ("the JSON object must be str, bytes or bytearray, not "
                   ++ Py.type_name v))
  end.

(** The [try] block of [get_weather]. *)
Definition get_weather_try (arguments_json : json) : result string :=
  args ← loads arguments_json;
  city ← Py.get args "city" (JStr "Unknown");
  unit ← Py.get args "unit" (JStr "celsius");
  weather ← get_weather_for_city city unit;
  mret (Json.dumps weather).

(** [get_weather(arguments_json)]: [except Exception as e] turns every
    failure of the block into an error object. *)
Definition get_weather (arguments_json : json) : string :=
  match get_weather_try arguments_json with
  | Ok s => s
  | Raise e => Json.dumps (error_object ("Failed to get weather: " ++ exn_str e))
  end.

(** [AVAILABLE_TOOLS] *)
Definition AVAILABLE_TOOLS : list (string * (json -> string)) :=
  [ ("get_weather", get_weather) ].

Fixpoint lookup_tool (tools : list (string * (json -> string))) (k : string)
  : option (json -> string) :=
  match tools with
  | [] => None
  | (k', f) :: rest => if String.eqb k' k then Some f else lookup_tool rest k
  end.

(** [execute_tool(name, arguments)].  [name in AVAILABLE_TOOLS] hashes
    [name], which raises for a list or a dict; a hashable value that is not
    a str equals no key. *)
Definition execute_tool (name arguments : json) : result string :=
  match Py.str_of_hashable name with
  | None => Raise (Exc TypeError ("unhashable type: '" ++ Py.type_name name ++ "'"))
  | Some shown =>
      match name with
      | JStr n =>
          match lookup_tool AVAILABLE_TOOLS n with
          | Some tool => Ok (tool arguments)
          | None => Ok (Json.dumps (error_object ("Unknown function: " ++ shown)))
          end
      | _ => Ok (Json.dumps (error_object ("Unknown function: " ++ shown)))
      end
  end.

End Tools.

End Weather.

(** ** The server state ([server.py]) *)

(** One frame on a websocket: a str or a bytes message. *)
Inductive frame :=
| Text (s : string)
| Binary (b : list Byte.byte).

Inductive peer := Azure | Client.

(** A frame accepted by [ws.send] of the connection to [to]. *)
Inductive event := Sent (to : peer) (f : frame).

(** A value of the [sessions] dict.  The three handles start as [None]. *)
Record session := Session {
  user_id : string;
  mode : string;
  created_at : Z;
  azure_ws : option nat;
  client_ws : option nat;
  message_count : Z;
  agent_session : option nat
}.

(** The module globals [sessions], [user_connections] and [user_requests],
    and the two connections of one voice session: [wire] lists the frames
    sent so far, oldest first, and [azure_left] and [client_left] count the
    sends each connection still accepts before it is closed. *)
Record world := World {
  sessions : gmap string session;
  user_connections : gmap string (gset string);
  user_requests : gmap string (list Z);
  wire : list event;
  azure_left : nat;
  client_left : nat
}.

Definition MAX_CONNECTIONS_PER_USER : Z := 3.
Definition MAX_REQUESTS_PER_MINUTE : Z := 60.
Definition RATE_LIMIT_WINDOW : Z := 60.

Definition set_sessions (m : gmap string session) (w : world) : world :=
  World m (user_connections w) (user_requests w) (wire w) (azure_left w) (client_left w).

Definition set_user_connections (m : gmap string (gset string)) (w : world) : world :=
  World (sessions w) m (user_requests w) (wire w) (azure_left w) (client_left w).

Definition set_user_requests (m : gmap string (list Z)) (w : world) : world :=
  World (sessions w) (user_connections w) m (wire w) (azure_left w) (client_left w).

(** [d[k]] on a [defaultdict]: a missing key is first bound to the default. *)
Definition touch {V : Type} (d : gmap string V) (k : string) (dflt : V)
  : V * gmap string V :=
  match d !! k with
  | Some v => (v, d)
  | None => (dflt, <[k := dflt]> d)
  end.

(** [create_session(user_id, mode)], with the two values it draws from the
    environment: [session_id = str(uuid.uuid4())] and [now = datetime.now()]. *)
Definition create_session (uid md : string) (session_id : string) (now : Z)
    (w : world) : string * world :=
  let w1 := set_sessions
      (<[session_id := Session uid md now None None 0 None]> (sessions w)) w in
  let '(conns, uc) := touch (user_connections w1) uid ∅ in
  (session_id, set_user_connections (<[uid := conns ∪ {[session_id]}]> uc) w1).

(** [cleanup_session(session_id)] *)
Definition cleanup_session (session_id : string) (w : world) : world :=
  match sessions w !! session_id with
  | Some s =>
      let '(conns, uc) := touch (user_connections w) (user_id s) ∅ in
      let w1 := set_user_connections (<[user_id s := conns ∖ {[session_id]}]> uc) w in
      set_sessions (delete session_id (sessions w1)) w1
  | None => w
  end.

(** [(now - ts).total_seconds() < RATE_LIMIT_WINDOW] *)
Definition in_window (now ts : Z) : Prop := now - ts < RATE_LIMIT_WINDOW * 1000000.

#[global] Instance in_window_dec now ts : Decision (in_window now ts).
Proof. unfold in_window. apply _. Defined.

(** [check_rate_limit(user_id)] with [now = datetime.now()]. *)
Definition check_rate_limit (uid : string) (now : Z) (w : world)
  : (bool * string) * world :=
  let '(conns, uc) := touch (user_connections w) uid ∅ in
  let w1 := set_user_connections uc w in
  if MAX_CONNECTIONS_PER_USER <=? Z.of_nat (size conns) then
    ((false, "Maximum " ++ PyStr.of_Z MAX_CONNECTIONS_PER_USER
             ++ " concurrent connections exceeded"), w1)
  else
    let '(reqs, ur) := touch (user_requests w1) uid [] in
    let kept := filter (in_window now) reqs in
    let w2 := set_user_requests (<[uid := kept]> ur) w1 in
    if MAX_REQUESTS_PER_MINUTE <=? Z.of_nat (length kept) then
      ((false, "Rate limit exceeded: " ++ PyStr.of_Z MAX_REQUESTS_PER_MINUTE
               ++ " requests per minute"), w2)
    else
      ((true, "OK"), set_user_requests (<[uid := (kept ++ [now])%list]> ur) w1).

(** What [authenticate_user] reads of the connection: it may have no
    [request] attribute, and the request may have no Authorization header. *)
Inductive connection :=
| NoRequest
| Request (authorization : option string).

(** [authenticate_user(websocket)], with [uuid_hex = uuid.uuid4().hex]. *)
Definition authenticate_user (websocket : connection) (uuid_hex : string) : string :=
  let auth_header :=
    match websocket with
    | Request (Some h) => h
    | Request None => ""
    | NoRequest => ""
    end in
  if PyStr.startswith auth_header "Bearer "
  then PyStr.strip (PyStr.replace auth_header "Bearer " "")
  else "anonymous-" ++ PyStr.take 8 uuid_hex.

(** How [handle_client_connection] ends its admission phase: it closes the
    connection with a status code and a reason, or it goes on to serve the
    session it created. *)
Inductive routed :=
| Closed (code : Z) (reason : string)
| Serving (session_id : string).

(** [sessions[session_id]['client_ws'] = websocket] *)
Definition bind_client (session_id : string) (handle : nat) (w : world) : world :=
  match sessions w !! session_id with
  | Some s =>
      set_sessions
        (<[session_id := Session (user_id s) (mode s) (created_at s) (azure_ws s)
                           (Some handle) (message_count s) (agent_session s)]>
           (sessions w)) w
  | None => w
  end.

(** [handle_client_connection(websocket)] from the authentication to the
    creation of the session.  [md] is the mode read from the path, [handle]
    identifies the websocket object, and [uuid_hex], [session_id], [now] and
    [now'] are the values the calls draw from the environment. *)
Definition accept_connection (websocket : connection) (handle : nat) (md : string)
    (uuid_hex session_id : string) (now now' : Z) (w : world) : routed * world :=
  let uid := authenticate_user websocket uuid_hex in
  if String.eqb uid "" then (Closed 1008 "Authentication failed", w)
  else
    let '((allowed, reason), w1) := check_rate_limit uid now w in
    if allowed then
      let '(sid, w2) := create_session uid md session_id now' w1 in
      (Serving sid, bind_client sid handle w2)
    else (Closed 1008 reason, w1).

(** ** The reaper and the choice of the mode *)

(** [(now - session['created_at']).total_seconds() > 3600] *)
Definition is_stale (now : Z) (s : session) : Prop :=
  now - created_at s > 3600 * 1000000.

#[global] Instance is_stale_dec now s : Decision (is_stale now s).
Proof. unfold is_stale. apply _. Defined.

(** The list [stale_sessions] of [periodic_cleanup].  The dict yields its
    items in insertion order and the map in the order of its keys; the
    properties of the sweep are stated for every order of this list. *)
Definition stale_sessions (now : Z) (w : world) : list string :=
  (map_to_list (filter (fun kv => is_stale now kv.2) (sessions w))).*1.

(** [for sid in sids: cleanup_session(sid)] *)
Definition cleanup_all (sids : list string) (w : world) : world :=
  foldl (fun w' sid => cleanup_session sid w') w sids.

(** One round of the loop of [periodic_cleanup], after its sleep, with
    [now = datetime.now()]. *)
Definition periodic_cleanup (now : Z) (w : world) : world :=
  cleanup_all (stale_sessions now w) w.

(** [s.split(sep, 1)[1]] for a one-character [sep] that occurs in [s]: the
    text after the first [sep] (empty when there is none). *)
Fixpoint after_first (sep : ascii) (s : string) : string :=
  match s with
  | EmptyString => EmptyString
  | String c s' => if Ascii.eqb c sep then s' else after_first sep s'
  end.

(** The handler [handle_client_connection] routes a mode to; the last
    branch closes the connection with "Invalid mode". *)
Inductive handler := VoiceMode | TextMode | InvalidMode.

(** The [if mode == 'voice' / elif mode == 'text' / else] of the router. *)
Definition route (md : string) : handler :=
  if String.eqb md "voice" then VoiceMode
  else if String.eqb md "text" then TextMode
  else InvalidMode.

Section ModeOfPath.

(** [urllib.parse.parse_qs]: the names of the query with their values; the
    list of values of a name it returns is never empty, and is given here
    as its first value and the others. *)
Variable parse_qs : string -> list (string * (string * list string)).

Fixpoint lookup_param (params : list (string * (string * list string)))
    (k : string) : option (string * list string) :=
  match params with
  | [] => None
  | (k', vs) :: rest => if String.eqb k' k then Some vs else lookup_param rest k
  end.

(** The mode [handle_client_connection] reads from the connection path. *)
Definition extract_mode (path : string) : string :=
  if PyStr.contains path "?" then
    let query := after_first "?"%char path in
    let params := parse_qs query in
    let mode_param :=
      match lookup_param params "mode" with
      | Some (first, _) => first
      | None => "voice"
      end in
    if String.eqb mode_param "voice" || String.eqb mode_param "text"
    then mode_param else "voice"
  else "voice".

End ModeOfPath.

(** The [finally] block of [handle_client_connection]: the session, when
    one was created, is cleaned up. *)
Definition finish_connection (outcome : routed) (w : world) : world :=
  match outcome with
  | Serving sid => cleanup_session sid w
  | Closed _ _ => w
  end.

(** ** The relay legs of a voice session *)

(** Code of the server that can raise and that touches the state. *)
Definition M (A : Type) : Type := world -> result A * world.

#[global] Instance M_ret : MRet M := fun A a w => (Ok a, w).
#[global] Instance M_bind : MBind M := fun A B f m w =>
  match m w with
  | (Ok a, w') => f a w'
  | (Raise e, w') => (Raise e, w')
  end.

Definition lift {A : Type} (r : result A) : M A := fun w => (r, w).

(** [try: body / except Exception as e: handler]; what the body did to the
    state before it raised stays done. *)
Definition try_except {A : Type} (body : M A) (handler : exn -> M A) : M A :=
  fun w =>
    match body w with
    | (Ok a, w') => (Ok a, w')
    | (Raise e, w') => handler e w'
    end.

Definition connection_closed : exn := Exc ConnectionClosed "connection closed".

(** [await ws.send(f)] on the connection to [to]. *)
Definition ws_send (to : peer) (f : frame) : M unit := fun w =>
  match to with
  | Azure =>
      match azure_left w with
      | O => (Raise connection_closed, w)
      | S n => (Ok tt, World (sessions w) (user_connections w) (user_requests w)
                             (wire w ++ [Sent Azure f]) n (client_left w))
      end
  | Client =>
      match client_left w with
      | O => (Raise connection_closed, w)
      | S n => (Ok tt, World (sessions w) (user_connections w) (user_requests w)
                             (wire w ++ [Sent Client f]) (azure_left w) n)
      end
  end.

(** The session [s] with its ['message_count'] set to [n]. *)
Definition with_message_count (s : session) (n : Z) : session :=
  Session (user_id s) (mode s) (created_at s) (azure_ws s) (client_ws s) n
          (agent_session s).

(** [sessions[session_id]['message_count'] += 1] *)
Definition bump_message_count (session_id : string) : M unit := fun w =>
  match sessions w !! session_id with
  | Some s =>
      (Ok tt, set_sessions
         (<[session_id := with_message_count s (message_count s + 1)]> (sessions w)) w)
  | None => (Raise (Exc KeyError ("'" ++ session_id ++ "'")), w)
  end.

(** [async for message in ws: body]: the frames are those received before
    the connection ends; an exception of the body leaves the loop. *)
Fixpoint for_each (body : frame -> M unit) (messages : list frame) : M unit :=
  match messages with
  | [] => mret tt
  | message :: rest => body message ;; for_each body rest
  end.

(** One iteration of the loop of [proxy_client_to_azure]. *)
Definition client_to_azure_step (session_id : string) (message : frame) : M unit :=
  match message with
  | Text _ => ws_send Azure message ;; bump_message_count session_id
  | Binary _ => ws_send Azure message
  end.

(** [proxy_client_to_azure(client_ws, azure_ws, session_id)] on the frames
    the client sends; both [except] clauses only log. *)
Definition proxy_client_to_azure (incoming : list frame) (session_id : string)
    (w : world) : world :=
  snd (for_each (client_to_azure_step session_id) incoming w).

(** The frame [json.dumps] makes of the function output in
    [send_function_result]. *)
Definition item_create (call_id : json) (output : string) : json :=
  JDict [ ("type", JStr "conversation.item.create");
          ("item", JDict [ ("type", JStr "function_call_output");
                           ("call_id", call_id);
                           ("output", JStr output) ]) ].

Definition response_create : json := JDict [ ("type", JStr "response.create") ].

(** [send_function_result(azure_ws, call_id, result)] *)
Definition send_function_result (call_id : json) (output : string) : M unit :=
  ws_send Azure (Text (Json.dumps (item_create call_id output))) ;;
  ws_send Azure (Text (Json.dumps response_create)).

Definition TRIGGER : string := "response.function_call_arguments.done".

Section Interceptor.

Variable json_loads : string -> result json.

(** The [try] block of [try_handle_function_call]. *)
Definition try_handle_function_call_try (message : string) : M bool :=
  data ← lift (json_loads message);
  msg_type ← lift (Py.get data "type" JNull);
  if Py.eq_str msg_type TRIGGER then
    call_id ← lift (Py.get data "call_id" JNull);
    name ← lift (Py.get data "name" JNull);
    arguments ← lift (Py.get data "arguments" (JStr "{}"));
    if negb (Py.truthy call_id) || negb (Py.truthy name) then mret false
    else
      output ← lift (Weather.execute_tool json_loads name arguments);
      send_function_result call_id output ;;
      mret true
  else mret false.

(** [try_handle_function_call(message, azure_ws, session_id)]: both
    [except] clauses return [False]. *)
Definition try_handle_function_call (message : string) : M bool :=
  try_except (try_handle_function_call_try message) (fun _ => mret false).

(** One iteration of the loop of [proxy_azure_to_client]. *)
Definition azure_to_client_step (message : frame) : M unit :=
  match message with
  | Text s =>
      try_handle_function_call s ≫= λ handled : bool,
        if handled then ws_send Client message else ws_send Client message
  | Binary _ => ws_send Client message
  end.

(** [proxy_azure_to_client(azure_ws, client_ws, session_id)] on the frames
    Azure sends; both [except] clauses only log. *)
Definition proxy_azure_to_client (incoming : list frame) (w : world) : world :=
  snd (for_each azure_to_client_step incoming w).

End Interceptor.

(** ** Text mode *)

(** [sessions[session_id]['agent_session'] = agent_session] *)
Definition bind_agent (session_id : string) (handle : nat) : M unit := fun w =>
  match sessions w !! session_id with
  | Some s =>
      (Ok tt, set_sessions
         (<[session_id := Session (user_id s) (mode s) (created_at s) (azure_ws s)
                            (client_ws s) (message_count s) (Some handle)]>
            (sessions w)) w)
  | None => (Raise (Exc KeyError ("'" ++ session_id ++ "'")), w)
  end.

(** The frame [{'type': 'error', 'error': msg}]. *)
Definition error_frame (msg : string) : frame :=
  Text (Json.dumps (JDict [("type", JStr "error"); ("error", JStr msg)])).

(** The frame [{'type': 'text_response', 'content': response}]. *)
Definition text_response (response : string) : frame :=
  Text (Json.dumps (JDict [("type", JStr "text_response"); ("content", JStr response)])).

(** The frame [{'type': 'session.created', 'session_id': session_id}]. *)
Definition session_created (session_id : string) : frame :=
  Text (Json.dumps (JDict [("type", JStr "session.created");
                           ("session_id", JStr session_id)])).

Definition NOT_CONFIGURED : string :=
  "Azure OpenAI is not configured. Check AZURE_ENDPOINT and AZURE_API_KEY environment variables.".

Section TextMode.

Variable json_loads : string -> result json.

(** The str [call_azure_chat_api_with_agent] returns for the message of
    the [i]-th incoming frame; the function catches what the agent raises
    and always returns a str. *)
Variable agent_reply : nat -> json -> string.

(** What [d[:50]] raises for a dict [d]: a [TypeError] before Python 3.12,
    a [KeyError] since. *)
Variable slice_of_dict : exn.

(** [user_message[:50]], evaluated for the log line before the agent is
    called: a str and a list can be sliced. *)
Definition slice_check (v : json) : result unit :=
  match v with
  | JStr _ | JList _ => Ok tt
  | JDict _ => Raise slice_of_dict
  | _ => Raise (Exc TypeError ("'" ++ Py.type_name v ++ "' object is not subscriptable"))
  end.

(** The inner [try] block of the loop of [handle_text_mode], on the
    [i]-th frame. *)
Definition text_message_try (session_id : string) (i : nat) (message : string)
  : M unit :=
  data ← lift (json_loads message);
  ty ← lift (Py.get data "type" JNull);
  if Py.eq_str ty "text_message" || Py.eq_str ty "text.message" then
    content ← lift (Py.get data "content" (JStr ""));
    user_message ← (if Py.truthy content then mret content
                    else lift (Py.get data "text" (JStr "")));
    if negb (Py.truthy user_message) then mret tt
    else
      lift (slice_check user_message) ;;
      ws_send Client (text_response (agent_reply i user_message)) ;;
      bump_message_count session_id
  else mret tt.

(** The two [except] clauses of the inner [try]. *)
Definition text_message_except (e : exn) : M unit :=
  match exn_cls e with
  | JSONDecodeError => ws_send Client (error_frame "Invalid message format")
  | _ => ws_send Client (error_frame (exn_str e))
  end.

(** One iteration of the loop of [handle_text_mode]. *)
Definition text_mode_step (session_id : string) (i : nat) (message : frame)
  : M unit :=
  match message with
  | Text s => try_except (text_message_try session_id i s) text_message_except
  | Binary _ => mret tt
  end.

Fixpoint text_mode_loop (session_id : string) (i : nat) (messages : list frame)
  : M unit :=
  match messages with
  | [] => mret tt
  | message :: rest =>
      text_mode_step session_id i message ;; text_mode_loop session_id (S i) rest
  end.

(** [handle_text_mode(websocket, session_id)] on the frames the client
    sends. [agent] tells whether [get_chat_agent] returned an agent and,
    when it did, what [agent.create_session()] returned or raised. Both
    outer [except] clauses only log. *)
Definition handle_text_mode (agent : option (result nat)) (incoming : list frame)
    (session_id : string) (w : world) : world :=
  match agent with
  | None => snd (ws_send Client (error_frame NOT_CONFIGURED) w)
  | Some created =>
      snd ((agent_session ← lift created;
            bind_agent session_id agent_session ;;
            ws_send Client (session_created session_id) ;;
            text_mode_loop session_id 0 incoming) w)
  end.

End TextMode.

(** ** An executable decoder

    [Decoder.loads] instantiates [json_loads] on JSON texts without float
    literals: it follows the grammar of [json.decoder] (objects, arrays,
    strings with their escapes, integers, [null], [true], [false], [NaN],
    [Infinity]) and keeps for a repeated key its first place and its last
    value, as a dict does.  Its messages name the failure and carry no
    position. *)

Module Decoder.

Definition err (msg : string) : exn := Exc JSONDecodeError msg.

Definition is_ws (c : ascii) : bool :=
  let n := PyStr.code c in
  ((n =? 32) || (n =? 9) || (n =? 10) || (n =? 13))%nat.

Fixpoint skip_ws (s : string) : string :=
  match s with
  | EmptyString => EmptyString
  | String c s' => if is_ws c then skip_ws s' else s
  end.

Definition is_digit (c : ascii) : bool :=
  let n := PyStr.code c in ((48 <=? n) && (n <=? 57))%nat.

Definition hex_val (c : ascii) : option nat :=
  let n := PyStr.code c in
  if ((48 <=? n) && (n <=? 57))%nat then Some (n - 48)%nat
  else if ((97 <=? n) && (n <=? 102))%nat then Some (n - 87)%nat
  else if ((65 <=? n) && (n <=? 70))%nat then Some (n - 55)%nat
  else None.

(** The character a one-letter escape stands for. *)
Definition unescape (c : ascii) : option ascii :=
  let n := PyStr.code c in
  if (n =? 34)%nat then Some c
  else if (n =? 92)%nat then Some c
  else if (n =? 47)%nat then Some c
  else if (n =? 98)%nat then Some (ascii_of_nat 8)
  else if (n =? 102)%nat then Some (ascii_of_nat 12)
  else if (n =? 110)%nat then Some (ascii_of_nat 10)
  else if (n =? 114)%nat then Some (ascii_of_nat 13)
  else if (n =? 116)%nat then Some (ascii_of_nat 9)
  else None.

(** The text after an opening quote: the decoded string and what follows
    the closing quote. *)
Fixpoint scan_string (s : string) : result (string * string) :=
  match s with
  | EmptyString => Raise (err "Unterminated string")
  | String c s' =>
      let n := PyStr.code c in
      if (n =? 34)%nat then Ok (EmptyString, s')
      else if (n <? 32)%nat then Raise (err "Invalid control character")
      else if (n =? 92)%nat then
        match s' with
        | EmptyString => Raise (err "Unterminated string")
        | String e s'' =>
            match unescape e with
            | Some ch =>
                match scan_string s'' with
                | Ok (body, rest) => Ok (String ch body, rest)
                | Raise x => Raise x
                end
            | None =>
                if (PyStr.code e =? 117)%nat then
                  match s'' with
                  | String h1 (String h2 (String h3 (String h4 r))) =>
                      match hex_val h1, hex_val h2, hex_val h3, hex_val h4 with
                      | Some 0%nat, Some 0%nat, Some a, Some b =>
                          match scan_string r with
                          | Ok (body, rest) =>
                              Ok (String (ascii_of_nat (16 * a + b)) body, rest)
                          | Raise x => Raise x
                          end
                      | Some _, Some _, Some _, Some _ =>
                          Raise (Exc ValueError "code point beyond U+00FF")
                      | _, _, _, _ => Raise (err "Invalid \uXXXX escape")
                      end
                  | _ => Raise (err "Invalid \uXXXX escape")
                  end
                else Raise (err "Invalid \escape")
            end
        end
      else
        match scan_string s' with
        | Ok (body, rest) => Ok (String c body, rest)
        | Raise x => Raise x
        end
  end.

(** The digits at the head of [s], read after [acc]. *)
Fixpoint scan_digits (s : string) (acc : Z) : Z * string :=
  match s with
  | EmptyString => (acc, s)
  | String c s' =>
      if is_digit c
      then scan_digits s' (10 * acc + Z.of_nat (PyStr.code c - 48))
      else (acc, s)
  end.

Definition starts_with_digit (s : string) : bool :=
  match s with
  | String c _ => is_digit c
  | EmptyString => false
  end.

(** Does a fraction or an exponent follow the integer part? *)
Definition float_tail (s : string) : bool :=
  match s with
  | String c s' =>
      let n := PyStr.code c in
      if (n =? 46)%nat then starts_with_digit s'
      else if ((n =? 101) || (n =? 69))%nat then
        match s' with
        | String sg s'' =>
            if ((PyStr.code sg =? 43) || (PyStr.code sg =? 45))%nat
            then starts_with_digit s'' else is_digit sg
        | EmptyString => false
        end
      else false
  | EmptyString => false
  end.

(** An integer without its sign: [0], or a non-zero digit and more digits. *)
Definition scan_nat (s : string) : result (Z * string) :=
  match s with
  | String c s' =>
      if (PyStr.code c =? 48)%nat then Ok (0, s')
      else if is_digit c then Ok (scan_digits s 0)
      else Raise (err "Expecting value")
  | EmptyString => Raise (err "Expecting value")
  end.

Definition scan_number (negative : bool) (s : string) : result (json * string) :=
  match scan_nat s with
  | Ok (z, rest) =>
      if float_tail rest then Raise (Exc ValueError "float literal")
      else Ok (JInt (if negative then - z else z), rest)
  | Raise x => Raise x
  end.

(** [d[k] = v] *)
Fixpoint dict_set (d : list (string * json)) (k : string) (v : json)
  : list (string * json) :=
  match d with
  | [] => [(k, v)]
  | (k', x) :: rest =>
      if String.eqb k' k then (k', v) :: rest else (k', x) :: dict_set rest k v
  end.

Definition strip_prefix (p s : string) : option string :=
  if String.prefix p s
  then Some (String.substring (String.length p) (String.length s - String.length p) s)
  else None.

Definition too_deep : exn := Exc RecursionError "maximum recursion depth exceeded".

(** One value at the head of [s] and the text after it.  [what] selects
    the value itself, the rest of an array after [[] or [,], or the rest of
    an object after [{] or [,]. *)
Inductive target :=
| Value
| Elements (acc : list json)
| Members (acc : list (string * json)).

Fixpoint scan (fuel : nat) (what : target) (s : string) : result (json * string) :=
  match fuel with
  | O => Raise too_deep
  | S fuel' =>
      match what with
      | Value =>
          match s with
          | EmptyString => Raise (err "Expecting value")
          | String c s' =>
              let n := PyStr.code c in
              if (n =? 34)%nat then
                match scan_string s' with
                | Ok (str, rest) => Ok (JStr str, rest)
                | Raise x => Raise x
                end
              else if (n =? 123)%nat then
                match skip_ws s' with
                | String c1 r1 =>
                    if (PyStr.code c1 =? 125)%nat then Ok (JDict [], r1)
                    else scan fuel' (Members []) (String c1 r1)
                | EmptyString => scan fuel' (Members []) EmptyString
                end
              else if (n =? 91)%nat then
                match skip_ws s' with
                | String c1 r1 =>
                    if (PyStr.code c1 =? 93)%nat then Ok (JList [], r1)
                    else scan fuel' (Elements []) (String c1 r1)
                | EmptyString => scan fuel' (Elements []) EmptyString
                end
              else if (n =? 45)%nat then
                match strip_prefix "Infinity" s' with
                | Some rest => Ok (JFloat "-inf", rest)
                | None => scan_number true s'
                end
              else
                match strip_prefix "null" s, strip_prefix "true" s,
                      strip_prefix "false" s, strip_prefix "NaN" s,
                      strip_prefix "Infinity" s with
                | Some rest, _, _, _, _ => Ok (JNull, rest)
                | _, Some rest, _, _, _ => Ok (JBool true, rest)
                | _, _, Some rest, _, _ => Ok (JBool false, rest)
                | _, _, _, Some rest, _ => Ok (JFloat "nan", rest)
                | _, _, _, _, Some rest => Ok (JFloat "inf", rest)
                | _, _, _, _, _ => scan_number false s
                end
          end
      | Elements acc =>
          match scan fuel' Value s with
          | Ok (v, rest) =>
              match skip_ws rest with
              | String c r =>
                  if (PyStr.code c =? 93)%nat then Ok (JList (acc ++ [v]), r)
                  else if (PyStr.code c =? 44)%nat
                  then scan fuel' (Elements (acc ++ [v])) (skip_ws r)
                  else Raise (err "Expecting ',' delimiter")
              | EmptyString => Raise (err "Expecting ',' delimiter")
              end
          | Raise x => Raise x
          end
      | Members acc =>
          match s with
          | String q s' =>
              if (PyStr.code q =? 34)%nat then
                match scan_string s' with
                | Ok (key, rest) =>
                    match skip_ws rest with
                    | String c r =>
                        if (PyStr.code c =? 58)%nat then
                          match scan fuel' Value (skip_ws r) with
                          | Ok (v, rest') =>
                              match skip_ws rest' with
                              | String c' r' =>
                                  if (PyStr.code c' =? 125)%nat
                                  then Ok (JDict (dict_set acc key v), r')
                                  else if (PyStr.code c' =? 44)%nat
                                  then scan fuel' (Members (dict_set acc key v)) (skip_ws r')
                                  else Raise (err "Expecting ',' delimiter")
                              | EmptyString => Raise (err "Expecting ',' delimiter")
                              end
                          | Raise x => Raise x
                          end
                        else Raise (err "Expecting ':' delimiter")
                    | EmptyString => Raise (err "Expecting ':' delimiter")
                    end
                | Raise x => Raise x
                end
              else Raise (err "Expecting property name enclosed in double quotes")
          | EmptyString =>
              Raise (err "Expecting property name enclosed in double quotes")
          end
      end
  end.

(** [json.loads(s)]: one value between optional whitespace. *)
Definition loads (s : string) : result json :=
  match scan (2 * String.length s + 2) Value (skip_ws s) with
  | Ok (v, rest) =>
      match skip_ws rest with
      | EmptyString => Ok v
      | _ => Raise (err "Extra data")
      end
  | Raise x => Raise x
  end.

End Decoder.

(** * The vocabulary of the properties *)

(** ** What the state says about an identity *)

(** [user_connections[uid]], read without touching the dict. *)
Definition conns (w : world) (uid : string) : gset string :=
  default ∅ (user_connections w !! uid).

(** [user_requests[uid]], read without touching the dict. *)
Definition requests (w : world) (uid : string) : list Z :=
  default [] (user_requests w !! uid).

(** The [user_id] stored in the session [sid], if there is one. *)
Definition owner (w : world) (sid : string) : option string :=
  user_id <$> sessions w !! sid.

Definition empty_world : world := World ∅ ∅ ∅ [] 0 0.

(** The states the registry goes through.  [uuid.uuid4()] is taken to
    return an id that is not in use. *)
Inductive reachable : world -> Prop :=
| reach_empty : reachable empty_world
| reach_create w uid md sid now :
    reachable w -> sessions w !! sid = None ->
    reachable (snd (create_session uid md sid now w))
| reach_cleanup w sid :
    reachable w -> reachable (cleanup_session sid w)
| reach_check w uid now :
    reachable w -> reachable (snd (check_rate_limit uid now w)).

(** The ledger lists a session id under an identity exactly when the
    registry holds that session for that identity. *)
Definition consistent (w : world) : Prop :=
  forall uid sid, sid ∈ conns w uid <-> owner w sid = Some uid.

(** The two reasons [check_rate_limit] gives for a denial. *)
Definition CONCURRENCY_REASON : string := "Maximum 3 concurrent connections exceeded".
Definition RATE_REASON : string := "Rate limit exceeded: 60 requests per minute".

(** The timestamps of [uid] that lie in the window ending at [now]. *)
Definition recent (w : world) (uid : string) (now : Z) : list Z :=
  filter (in_window now) (requests w uid).

(** ** Frames and legs *)

(** A str frame from Azure that is no complete function call, in the words
    of the interceptor's contract: a bytes frame, a text that does not
    decode, a decoded value that is no object, a [type] other than the
    trigger's, or a [call_id] or [name] that is missing or empty. *)
Definition missing_or_empty (d : list (string * json)) (k : string) : Prop :=
  match Py.assoc d k with
  | None => True
  | Some v => Py.truthy v = false
  end.

Definition not_a_trigger (json_loads : string -> result json) (fr : frame) : Prop :=
  match fr with
  | Binary _ => True
  | Text s =>
      match json_loads s with
      | Raise _ => True
      | Ok (JDict d) =>
          Py.assoc d "type" <> Some (JStr "response.function_call_arguments.done")
          \/ missing_or_empty d "call_id" \/ missing_or_empty d "name"
      | Ok _ => True
      end
  end.

(** The str frames among [frames]. *)
Fixpoint count_text (frames : list frame) : nat :=
  match frames with
  | [] => 0
  | Text _ :: rest => S (count_text rest)
  | Binary _ :: rest => count_text rest
  end.

(** A computation that leaves the [sessions] dict as it was. *)
Definition keeps_sessions {A : Type} (m : M A) : Prop :=
  forall w, sessions (snd (m w)) = sessions w.

(** ** The states of the running server *)


(** A computation that changes no identity's connections or timestamps and
    no session's owner. *)
Definition registry_stable {A : Type} (m : M A) : Prop :=
  forall w,
    user_connections (snd (m w)) = user_connections w
    /\ user_requests (snd (m w)) = user_requests w
    /\ (forall sid, owner (snd (m w)) sid = owner w sid).


(** The frames sent to the client among [evs], oldest first. *)
Fixpoint to_client (evs : list event) : list frame :=
  match evs with
  | [] => []
  | Sent Client f :: rest => f :: to_client rest
  | Sent Azure _ :: rest => to_client rest
  end.

(** A computation that sends nothing to the client. *)
Definition silent_to_client {A : Type} (m : M A) : Prop :=
  forall w,
    client_left (snd (m w)) = client_left w
    /\ to_client (wire (snd (m w))) = to_client (wire w).

(** The frames of [frames] up to its first str frame, that frame included. *)
Fixpoint through_first_text (frames : list frame) : list frame :=
  match frames with
  | [] => []
  | Text s :: _ => [Text s]
  | Binary b :: rest => Binary b :: through_first_text rest
  end.

(** ** Text messages *)

(** The value [handle_text_mode] takes as the user's message from a
    decoded object: its [content] when that is not empty, else its
    [text]. *)
Definition user_message_of (d : list (string * json)) : json :=
  let content := default (JStr "") (Py.assoc d "content") in
  if Py.truthy content then content else default (JStr "") (Py.assoc d "text").

(** The object has one of the two types of a text message. *)
Definition is_text_message (d : list (string * json)) : Prop :=
  Py.assoc d "type" = Some (JStr "text_message")
  \/ Py.assoc d "type" = Some (JStr "text.message").

(** The text [message] decodes to a text message whose user message is the
    non-empty str [um]. *)
Definition asks (json_loads : string -> result json) (message um : string) : Prop :=
  um <> ""
  /\ exists d, json_loads message = Ok (JDict d)
               /\ is_text_message d /\ user_message_of d = JStr um.

(** The text responses to the user messages [ums], the first of which is
    the message of frame [i]. *)
Fixpoint responses (agent_reply : nat -> json -> string) (i : nat)
    (ums : list string) : list event :=
  match ums with
  | [] => []
  | um :: rest =>
      Sent Client (text_response (agent_reply i (JStr um)))
      :: responses agent_reply (S i) rest
  end.

(** ** States and frames the properties are tried on *)

(** A registry with one voice session of the identity alice. *)
Definition one_session : world :=
  snd (create_session "alice" "voice" "s-1" 0 empty_world).

(** The state after alice has opened three voice connections, one second
    apart. *)
Definition capped : world :=
  let alice := Request (Some "Bearer alice") in
  let w1 := snd (accept_connection alice 1 "voice" "" "s-1" 0 0 empty_world) in
  let w2 := snd (accept_connection alice 2 "voice" "" "s-2" 1000000 1000000 w1) in
  snd (accept_connection alice 3 "voice" "" "s-3" 2000000 2000000 w2).

(** The voice session of alice with both connections open. *)
Definition voice_relay : world :=
  World (sessions one_session) (user_connections one_session)
        (user_requests one_session) [] 8 8.

Definition weather_call_fields : list (string * json) :=
  [ ("type", JStr "response.function_call_arguments.done");
    ("call_id", JStr "call_1");
    ("name", JStr "get_weather");
    ("arguments", JStr (Json.dumps (JDict [("city", JStr "Paris")]))) ].

(** A complete function call as Azure sends it. *)
Definition weather_call : string := Json.dumps (JDict weather_call_fields).

Definition paris_weather : json :=
  JDict [ ("city", JStr "Paris"); ("temperature", JInt 14);
          ("unit", JStr (PyStr.deg ++ "C")); ("condition", JStr "Cloudy");
          ("humidity", JStr "65%"); ("wind", JStr "12 km/h");
          ("description", JStr ("The weather in Paris is cloudy with a temperature of 14"
             ++ PyStr.deg ++ "C. Humidity is at 65% with winds of 12 km/h.")) ].

(** A frame of another type, and a trigger whose [call_id] is empty. *)
Definition session_updated : string :=
  Json.dumps (JDict [("type", JStr "session.updated")]).

Definition call_without_id : string :=
  Json.dumps (JDict [ ("type", JStr "response.function_call_arguments.done");
                      ("call_id", JStr "");
                      ("name", JStr "get_weather") ]).

(** The state after a fourth connection of alice was turned away. *)
Definition crowded : world :=
  snd (accept_connection (Request (Some "Bearer alice")) 4 "voice" "" "s-4"
         3000000 3000000 capped).

(** The voice session of alice when Azure takes one more frame only. *)
Definition closing_relay : world :=
  World (sessions one_session) (user_connections one_session)
        (user_requests one_session) [] 1 8.

(** The connections of the voice session after its session was removed. *)
Definition orphaned_relay : world := cleanup_session "s-1" voice_relay.

(** A function call whose [name] is a list. *)
Definition call_with_list_name_fields : list (string * json) :=
  [ ("type", JStr "response.function_call_arguments.done");
    ("call_id", JStr "call_2");
    ("name", JList [JStr "get_weather"]) ].

Definition call_with_list_name : string :=
  Json.dumps (JDict call_with_list_name_fields).

(** A query parser for the tests: it knows the query [mode=text] and the
    query [mode=video]. *)
Definition two_queries (query : string) : list (string * (string * list string)) :=
  if String.eqb query "mode=text" then [("mode", ("text", []))]
  else if String.eqb query "mode=video" then [("mode", ("video", []))]
  else [].

(** An agent for the tests: it repeats what it is told. *)
Definition parrot (i : nat) (message : json) : string :=
  match message with
  | JStr s => "You said: " ++ s
  | _ => "What?"
  end.

Definition slice_error : exn := Exc TypeError "unhashable type: 'slice'".

(** Two text messages, the second with its message under [text]. *)
Definition hello : string :=
  Json.dumps (JDict [("type", JStr "text_message"); ("content", JStr "hello")]).

Definition weather_question : string :=
  Json.dumps (JDict [("type", JStr "text.message"); ("content", JStr "");
                     ("text", JStr "weather?")]).

(** The text session of bob, with the connection to the client open. *)
Definition text_relay : world :=
  World (sessions (snd (create_session "bob" "text" "t-1" 0 empty_world)))
        (user_connections (snd (create_session "bob" "text" "t-1" 0 empty_world)))
        ∅ [] 0 8.

(** * Properties *)

(** ** Session registry *)

Section Registry.

Implicit Types (w : world) (uid sid : string).

Lemma touch_fst {V : Type} (d : gmap string V) k dflt :
  fst (touch d k dflt) = default dflt (d !! k).
Proof. unfold touch. by destruct (d !! k). Qed.

Lemma touch_snd_lookup {V : Type} (d : gmap string V) k dflt k' :
  default dflt (snd (touch d k dflt) !! k') = default dflt (d !! k').
Proof.
  unfold touch. destruct (d !! k) eqn:E; [done|]. simpl.
  destruct (decide (k = k')) as [->|Hne].
  - by rewrite lookup_insert_eq, E.
  - by rewrite lookup_insert_ne.
Qed.

Lemma touch_snd_insert {V : Type} (d : gmap string V) k dflt v :
  <[k := v]> (snd (touch d k dflt)) = <[k := v]> d.
Proof.
  unfold touch. destruct (d !! k); [done|]. simpl. apply insert_insert_eq.
Qed.

Lemma cleanup_session_absent w sid :
  sessions w !! sid = None -> cleanup_session sid w = w.
Proof. intros E. unfold cleanup_session. by rewrite E. Qed.

Lemma cleanup_session_removes w sid :
  sessions (cleanup_session sid w) !! sid = None.
Proof.
  unfold cleanup_session. destruct (sessions w !! sid) as [s|] eqn:E; [|done].
  destruct (touch _ _ _) as [c uc]. simpl. apply lookup_delete_eq.
Qed.

(** C8. Destroying a session is idempotent: a second [cleanup_session] on
    the same id changes nothing more, and on an id that is not in [sessions]
    the call returns the state as it was (the function has no raising path:
    the dict access is guarded and [discard] accepts a missing element). *)
Theorem cleanup_session_idempotent w sid :
  cleanup_session sid (cleanup_session sid w) = cleanup_session sid w
  /\ (sessions w !! sid = None -> cleanup_session sid w = w).
Proof.
  split; [|apply cleanup_session_absent].
  apply cleanup_session_absent, cleanup_session_removes.
Qed.

Lemma conns_create w uid md sid now u :
  conns (snd (create_session uid md sid now w)) u
  = if decide (u = uid) then conns w uid ∪ {[sid]} else conns w u.
Proof.
  unfold create_session, conns. simpl.
  pose proof (touch_fst (user_connections w) uid ∅) as Hf.
  pose proof (touch_snd_lookup (user_connections w) uid ∅ u) as Hs.
  destruct (touch (user_connections w) uid ∅) as [c uc]. simpl in *.
  case_decide as Hu.
  - subst u. by rewrite lookup_insert_eq, Hf.
  - by rewrite lookup_insert_ne.
Qed.

Lemma owner_create w uid md sid now sid' :
  owner (snd (create_session uid md sid now w)) sid'
  = if decide (sid' = sid) then Some uid else owner w sid'.
Proof.
  unfold create_session, owner. simpl.
  destruct (touch (user_connections w) uid ∅) as [c uc]. simpl.
  case_decide as Hs.
  - subst. by rewrite lookup_insert_eq.
  - by rewrite lookup_insert_ne.
Qed.

Lemma conns_cleanup w sid s u :
  sessions w !! sid = Some s ->
  conns (cleanup_session sid w) u
  = if decide (u = user_id s) then conns w u ∖ {[sid]} else conns w u.
Proof.
  intros E. unfold cleanup_session, conns. rewrite E.
  pose proof (touch_fst (user_connections w) (user_id s) ∅) as Hf.
  pose proof (touch_snd_lookup (user_connections w) (user_id s) ∅ u) as Hs.
  destruct (touch (user_connections w) (user_id s) ∅) as [c uc]. simpl in *.
  case_decide as Hu.
  - subst u. by rewrite lookup_insert_eq, Hf.
  - by rewrite lookup_insert_ne.
Qed.

Lemma owner_cleanup w sid s sid' :
  sessions w !! sid = Some s ->
  owner (cleanup_session sid w) sid'
  = if decide (sid' = sid) then None else owner w sid'.
Proof.
  intros E. unfold cleanup_session, owner. rewrite E.
  destruct (touch (user_connections w) (user_id s) ∅) as [c uc]. simpl.
  case_decide as Hs.
  - subst. by rewrite lookup_delete_eq.
  - by rewrite lookup_delete_ne.
Qed.

Lemma conns_check w uid now u :
  conns (snd (check_rate_limit uid now w)) u = conns w u.
Proof.
  unfold check_rate_limit, conns.
  pose proof (touch_snd_lookup (user_connections w) uid ∅ u) as Hs.
  destruct (touch (user_connections w) uid ∅) as [c uc]. simpl in *.
  case_match; [done|].
  destruct (touch _ uid []) as [r ur]. simpl.
  by case_match.
Qed.

Lemma sessions_check w uid now :
  sessions (snd (check_rate_limit uid now w)) = sessions w.
Proof.
  unfold check_rate_limit.
  destruct (touch (user_connections w) uid ∅) as [c uc]. simpl.
  case_match; [done|].
  destruct (touch _ uid []) as [r ur]. simpl.
  by case_match.
Qed.

Lemma reachable_consistent w : reachable w -> consistent w.
Proof.
  induction 1 as [|w uid0 md sid0 now _ IH Hfresh|w sid0 _ IH|w uid0 now _ IH];
    intros uid sid.
  - unfold conns, owner. simpl. rewrite !lookup_empty. simpl. set_solver.
  - rewrite conns_create, owner_create.
    assert (Hnone : owner w sid0 = None) by (unfold owner; by rewrite Hfresh).
    pose proof (IH uid sid) as IHsid. pose proof (IH uid sid0) as IHfresh.
    rewrite Hnone in IHfresh.
    repeat case_decide; subst; set_unfold; naive_solver.
  - destruct (sessions w !! sid0) as [s|] eqn:E.
    + rewrite (conns_cleanup _ _ s), (owner_cleanup _ _ s) by done.
      pose proof (IH uid sid) as IHsid. pose proof (IH uid sid0) as IHgone.
      assert (Hown : owner w sid0 = Some (user_id s)) by (unfold owner; by rewrite E).
      rewrite Hown in IHgone.
      repeat case_decide; subst; set_unfold; naive_solver.
    + by rewrite cleanup_session_absent.
  - rewrite conns_check. unfold owner. rewrite sessions_check. apply IH.
Qed.

(** C10. In every state the registry reaches from the empty one, a session
    id is a key of [sessions] exactly when some identity's set in
    [user_connections] holds it; that identity is unique and is the
    [user_id] stored in the session, so [user_connections[uid]] is the set
    of the live sessions of [uid]. *)
Theorem registry_ledger_consistent w :
  reachable w ->
  (forall sid, is_Some (sessions w !! sid) <-> exists uid, sid ∈ conns w uid)
  /\ (forall sid uid, sid ∈ conns w uid <-> owner w sid = Some uid)
  /\ (forall sid u1 u2, sid ∈ conns w u1 -> sid ∈ conns w u2 -> u1 = u2)
  /\ (forall uid,
        conns w uid = dom (filter (fun kv => user_id kv.2 = uid) (sessions w))).
Proof.
  intros Hr. pose proof (reachable_consistent w Hr) as Hc.
  split; [|split; [|split]].
  - intros sid. split.
    + intros [s E]. exists (user_id s). apply Hc. unfold owner. by rewrite E.
    + intros [uid Hin]. apply Hc in Hin. unfold owner in Hin.
      destruct (sessions w !! sid); [by eexists|done].
  - intros sid uid. apply Hc.
  - intros sid u1 u2 H1 H2. apply Hc in H1, H2. congruence.
  - intros uid. apply set_eq. intros sid.
    rewrite (Hc uid sid), elem_of_dom. unfold owner. split.
    + destruct (sessions w !! sid) as [s|] eqn:E; [|done].
      intros [= <-]. exists s. by apply map_lookup_filter_Some.
    + intros [s [E Hu]%map_lookup_filter_Some]. rewrite E. simpl in *. by subst.
Qed.

End Registry.

Lemma registry_ledger_consistent_witness :
  reachable one_session
  /\ ((forall sid, is_Some (sessions one_session !! sid)
                   <-> exists uid, sid ∈ conns one_session uid)
      /\ (forall sid uid, sid ∈ conns one_session uid
                          <-> owner one_session sid = Some uid)
      /\ (forall sid u1 u2, sid ∈ conns one_session u1
                            -> sid ∈ conns one_session u2 -> u1 = u2)
      /\ (forall uid, conns one_session uid
            = dom (filter (fun kv => user_id kv.2 = uid) (sessions one_session)))).
Proof.
  assert (Hr : reachable one_session)
    by (apply reach_create; [apply reach_empty | reflexivity]).
  split; [exact Hr | exact (registry_ledger_consistent one_session Hr)].
Defined.

Lemma cleanup_session_idempotent_witness :
  sessions empty_world !! "s-1" = None
  /\ cleanup_session "s-1" empty_world = empty_world
  /\ cleanup_session "s-1" (cleanup_session "s-1" one_session)
     = cleanup_session "s-1" one_session.
Proof.
  split; [reflexivity|]. split.
  - apply (proj2 (cleanup_session_idempotent empty_world "s-1")). reflexivity.
  - apply (proj1 (cleanup_session_idempotent one_session "s-1")).
Defined.

(** ** Admission control *)

Section Admission.

Implicit Types (w : world) (uid : string) (now : Z).

Lemma check_rate_limit_at_cap w uid now :
  MAX_CONNECTIONS_PER_USER <= Z.of_nat (size (conns w uid)) ->
  fst (check_rate_limit uid now w) = (false, CONCURRENCY_REASON)
  /\ requests (snd (check_rate_limit uid now w)) uid = requests w uid.
Proof.
  intros Hcap. unfold check_rate_limit, conns in *.
  rewrite <- (touch_fst (user_connections w) uid ∅) in Hcap.
  destruct (touch (user_connections w) uid ∅) as [c uc]. simpl in *.
  apply Z.leb_le in Hcap. rewrite Hcap. done.
Qed.

Lemma check_rate_limit_below_cap w uid now :
  Z.of_nat (size (conns w uid)) < MAX_CONNECTIONS_PER_USER ->
  (MAX_REQUESTS_PER_MINUTE <= Z.of_nat (length (recent w uid now)) ->
     fst (check_rate_limit uid now w) = (false, RATE_REASON)
     /\ requests (snd (check_rate_limit uid now w)) uid = recent w uid now)
  /\ (Z.of_nat (length (recent w uid now)) < MAX_REQUESTS_PER_MINUTE ->
     fst (check_rate_limit uid now w) = (true, "OK")
     /\ requests (snd (check_rate_limit uid now w)) uid
        = (recent w uid now ++ [now])%list).
Proof.
  intros Hcap. unfold check_rate_limit, recent, requests, conns in *.
  rewrite <- (touch_fst (user_connections w) uid ∅) in Hcap.
  destruct (touch (user_connections w) uid ∅) as [c uc]. simpl in *.
  apply Z.leb_gt in Hcap. rewrite Hcap.
  rewrite <- (touch_fst (user_requests w) uid []).
  destruct (touch (user_requests w) uid []) as [r ur]. simpl.
  split; intros Hn.
  - apply Z.leb_le in Hn. rewrite Hn. simpl. by rewrite lookup_insert_eq.
  - apply Z.leb_gt in Hn. rewrite Hn. simpl. by rewrite lookup_insert_eq.
Qed.

(** C3. Below the concurrency cap, sixty or more timestamps inside the
    window deny the check with the rate-limit reason and record nothing new
    (the window keeps the pruned timestamps only); fewer than sixty allow it
    and append the current time to the pruned window. *)
Theorem check_rate_limit_window w uid now :
  Z.of_nat (size (conns w uid)) < MAX_CONNECTIONS_PER_USER ->
  (MAX_REQUESTS_PER_MINUTE <= Z.of_nat (length (recent w uid now)) ->
     fst (check_rate_limit uid now w)
       = (false, "Rate limit exceeded: 60 requests per minute")
     /\ requests (snd (check_rate_limit uid now w)) uid = recent w uid now)
  /\ (Z.of_nat (length (recent w uid now)) < MAX_REQUESTS_PER_MINUTE ->
     fst (check_rate_limit uid now w) = (true, "OK")
     /\ requests (snd (check_rate_limit uid now w)) uid
        = (recent w uid now ++ [now])%list).
Proof. apply check_rate_limit_below_cap. Qed.

(** C4. With exactly three active sessions the check is denied with the
    concurrency reason; with fewer than three it is either allowed or denied
    with the rate-limit reason, the latter only when sixty timestamps lie in
    the window. *)
Theorem check_rate_limit_concurrency w uid now :
  (size (conns w uid) = 3%nat ->
     fst (check_rate_limit uid now w)
       = (false, "Maximum 3 concurrent connections exceeded"))
  /\ ((size (conns w uid) < 3)%nat ->
     fst (check_rate_limit uid now w) = (true, "OK")
     \/ (fst (check_rate_limit uid now w)
           = (false, "Rate limit exceeded: 60 requests per minute")
         /\ MAX_REQUESTS_PER_MINUTE <= Z.of_nat (length (recent w uid now)))).
Proof.
  split; intros Hsize.
  - apply check_rate_limit_at_cap. rewrite Hsize. done.
  - assert (Hlt : Z.of_nat (size (conns w uid)) < MAX_CONNECTIONS_PER_USER)
      by (unfold MAX_CONNECTIONS_PER_USER; lia).
    destruct (check_rate_limit_below_cap w uid now Hlt) as [Hdeny Hallow].
    destruct (Z_lt_le_dec (Z.of_nat (length (recent w uid now)))
                MAX_REQUESTS_PER_MINUTE) as [Hn|Hn].
    + left. by apply Hallow.
    + right. split; [by apply Hdeny | done].
Qed.

(** C5, as the code has it. A check that gets past the concurrency test
    prunes the window: afterwards the identity's timestamps are those that
    were inside the window, in their order, followed by the current time
    when the check is allowed, so none with [now - ts >= RATE_LIMIT_WINDOW]
    is left. A check denied by the concurrency cap returns before the
    pruning and leaves the identity's timestamps as they were. *)
Theorem check_rate_limit_prunes w uid now :
  (Z.of_nat (size (conns w uid)) < MAX_CONNECTIONS_PER_USER ->
     requests (snd (check_rate_limit uid now w)) uid
       = (recent w uid now
          ++ (if fst (fst (check_rate_limit uid now w)) then [now] else []))%list
     /\ (forall ts, ts ∈ requests (snd (check_rate_limit uid now w)) uid ->
                    in_window now ts)
     /\ (forall ts, ts ∈ requests w uid -> in_window now ts ->
                    ts ∈ requests (snd (check_rate_limit uid now w)) uid))
  /\ (MAX_CONNECTIONS_PER_USER <= Z.of_nat (size (conns w uid)) ->
     fst (check_rate_limit uid now w) = (false, CONCURRENCY_REASON)
     /\ requests (snd (check_rate_limit uid now w)) uid = requests w uid).
Proof.
  split; [|apply check_rate_limit_at_cap].
  intros Hlt.
  destruct (check_rate_limit_below_cap w uid now Hlt) as [Hdeny Hallow].
  assert (Heq : requests (snd (check_rate_limit uid now w)) uid
       = (recent w uid now
          ++ (if fst (fst (check_rate_limit uid now w)) then [now] else []))%list).
  { destruct (Z_lt_le_dec (Z.of_nat (length (recent w uid now)))
                MAX_REQUESTS_PER_MINUTE) as [Hn|Hn].
    - destruct (Hallow Hn) as [-> ->]. done.
    - destruct (Hdeny Hn) as [-> ->]. simpl. by rewrite app_nil_r. }
  split; [exact Heq|]. rewrite Heq. split.
  - intros ts [Hin|Hin]%elem_of_app.
    + unfold recent in Hin. by apply list_elem_of_filter in Hin as [? _].
    + destruct (fst (fst _)); [|by apply elem_of_nil in Hin].
      apply list_elem_of_singleton in Hin as ->.
      unfold in_window, RATE_LIMIT_WINDOW. lia.
  - intros ts Hin Hwin. apply elem_of_app. left.
    unfold recent. by apply list_elem_of_filter.
Qed.

End Admission.

Lemma check_rate_limit_window_witness :
  fst (check_rate_limit "alice" 5000000 one_session) = (true, "OK")
  /\ requests (snd (check_rate_limit "alice" 5000000 one_session)) "alice"
     = (recent one_session "alice" 5000000 ++ [5000000])%list.
Proof.
  assert (Hcap : Z.of_nat (size (conns one_session "alice"))
                 < MAX_CONNECTIONS_PER_USER) by (vm_compute; reflexivity).
  apply (proj2 (check_rate_limit_window one_session "alice" 5000000 Hcap)).
  vm_compute. reflexivity.
Defined.

Lemma check_rate_limit_concurrency_witness :
  size (conns capped "alice") = 3%nat
  /\ fst (check_rate_limit "alice" 61000000 capped)
     = (false, "Maximum 3 concurrent connections exceeded").
Proof.
  assert (Hsize : size (conns capped "alice") = 3%nat) by (vm_compute; reflexivity).
  split; [exact Hsize|].
  exact (proj1 (check_rate_limit_concurrency capped "alice" 61000000) Hsize).
Defined.

(** C5 as stated fails: at the concurrency cap the check is denied and the
    timestamp 0, made 61 seconds earlier, is still recorded afterwards. *)
Lemma check_rate_limit_keeps_stale_at_cap :
  fst (check_rate_limit "alice" 61000000 capped)
    = (false, "Maximum 3 concurrent connections exceeded")
  /\ 0 ∈ requests (snd (check_rate_limit "alice" 61000000 capped)) "alice"
  /\ 61000000 - 0 >= RATE_LIMIT_WINDOW * 1000000.
Proof.
  split; [|split].
  - vm_compute. reflexivity.
  - replace (requests _ _) with [0; 1000000; 2000000] by (vm_compute; reflexivity).
    apply list_elem_of_here.
  - vm_compute. discriminate.
Qed.

Lemma check_rate_limit_prunes_witness :
  requests (snd (check_rate_limit "alice" 61000000 capped)) "alice"
  = requests capped "alice".
Proof.
  apply (proj2 (check_rate_limit_prunes capped "alice" 61000000)).
  vm_compute. discriminate.
Defined.

(** ** Authentication *)

Section Authentication.

Lemma replace_from_absent old new s :
  PyStr.contains s old = false -> PyStr.replace_from old new s 0 = s.
Proof.
  induction s as [|c s IH]; [done|].
  simpl. intros [Hp Hc]%orb_false_iff.
  rewrite Hp. f_equal. by apply IH.
Qed.

Lemma replace_bearer_prefix token :
  PyStr.replace ("Bearer " ++ token) "Bearer " ""
  = PyStr.replace_from "Bearer " "" token 0.
Proof. by destruct token. Qed.

Lemma startswith_bearer token :
  PyStr.startswith ("Bearer " ++ token) "Bearer " = true.
Proof. by destruct token. Qed.

Lemma all_space_lstrip s : PyStr.all_space (PyStr.lstrip s) = PyStr.all_space s.
Proof.
  induction s as [|c s IH]; [done|].
  simpl. destruct (PyStr.isspace c) eqn:E; [done|]. simpl. by rewrite E.
Qed.

Lemma rstrip_empty s : PyStr.rstrip s = "" <-> PyStr.all_space s = true.
Proof.
  induction s as [|c s IH]; [done|].
  simpl. destruct (PyStr.rstrip s) eqn:Er.
  - assert (Hs : PyStr.all_space s = true) by (by apply IH).
    rewrite Hs, andb_true_r. by destruct (PyStr.isspace c).
  - assert (Hs : PyStr.all_space s = false).
    { destruct (PyStr.all_space s); [|done]. by pose proof (proj2 IH eq_refl). }
    rewrite Hs, andb_false_r. done.
Qed.

Lemma strip_empty s : PyStr.strip s = "" <-> PyStr.all_space s = true.
Proof. unfold PyStr.strip. by rewrite rstrip_empty, all_space_lstrip. Qed.

(** C9, as the code has it. [authenticate_user] always returns a str. For a
    header ["Bearer " ++ token] whose token contains no further
    ["Bearer "], the identity is the token with surrounding whitespace
    removed, which is empty exactly when the token is blank. Without a
    request, without a header, or with a header that does not start with
    ["Bearer "], the identity is ["anonymous-"] and the first eight hex
    digits of a fresh UUID, hence never empty. *)
Theorem authenticate_user_identity (websocket : connection) (uuid_hex : string) :
  (forall token,
      websocket = Request (Some ("Bearer " ++ token)) ->
      PyStr.contains token "Bearer " = false ->
      authenticate_user websocket uuid_hex = PyStr.strip token
      /\ (authenticate_user websocket uuid_hex = ""
          <-> PyStr.all_space token = true))
  /\ (websocket = NoRequest \/ websocket = Request None
      \/ (exists h, websocket = Request (Some h)
                    /\ PyStr.startswith h "Bearer " = false) ->
      authenticate_user websocket uuid_hex
        = "anonymous-" ++ PyStr.take 8 uuid_hex
      /\ authenticate_user websocket uuid_hex <> "").
Proof.
  split.
  - intros token -> Hno.
    assert (Hid : authenticate_user (Request (Some ("Bearer " ++ token))) uuid_hex
                  = PyStr.strip token).
    { unfold authenticate_user.
      rewrite startswith_bearer, replace_bearer_prefix.
      by rewrite replace_from_absent. }
    split; [exact Hid|]. rewrite Hid. apply strip_empty.
  - intros Hother.
    assert (Hid : authenticate_user websocket uuid_hex
                  = "anonymous-" ++ PyStr.take 8 uuid_hex).
    { destruct Hother as [->|[->|[h [-> Hh]]]]; try reflexivity.
      unfold authenticate_user. by rewrite Hh. }
    split; [exact Hid|]. rewrite Hid. discriminate.
Qed.

End Authentication.

(** C9 as stated fails: the header ["Bearer "] starts with ["Bearer "] and
    yields the empty identity, and the router then closes the connection
    with "Authentication failed".  (A token that contains ["Bearer "] again
    loses it: [replace] removes every occurrence.) *)
Lemma authenticate_user_blank_token :
  PyStr.startswith "Bearer " "Bearer " = true
  /\ authenticate_user (Request (Some "Bearer ")) "9f1c2ab47d3e4c0a8b6f5e4d3c2b1a09" = ""
  /\ fst (accept_connection (Request (Some "Bearer ")) 1 "voice"
            "9f1c2ab47d3e4c0a8b6f5e4d3c2b1a09" "s-1" 0 0 empty_world)
     = Closed 1008 "Authentication failed"
  /\ authenticate_user (Request (Some "Bearer a Bearer b"))
       "9f1c2ab47d3e4c0a8b6f5e4d3c2b1a09" = "a b".
Proof. repeat split. Qed.

Lemma authenticate_user_identity_witness :
  authenticate_user (Request (Some "Bearer  alice ")) "9f1c2ab47d3e4c0a8b6f5e4d3c2b1a09"
    = PyStr.strip " alice "
  /\ authenticate_user (Request None) "9f1c2ab47d3e4c0a8b6f5e4d3c2b1a09"
     = "anonymous-9f1c2ab4".
Proof.
  split.
  - apply (proj1 (authenticate_user_identity
                    (Request (Some "Bearer  alice ")) "9f1c2ab47d3e4c0a8b6f5e4d3c2b1a09")
                 " alice "); reflexivity.
  - apply (proj2 (authenticate_user_identity
                    (Request None) "9f1c2ab47d3e4c0a8b6f5e4d3c2b1a09")).
    right. left. reflexivity.
Defined.

(** ** The tool executor *)

Section ToolExecutor.

Variable json_loads : string -> result json.

Lemma result_bind_Ok {A B : Type} (m : result A) (f : A -> result B) b :
  m ≫= f = Ok b -> exists a, m = Ok a /\ f a = Ok b.
Proof. destruct m as [a|e]; [by exists a|done]. Qed.

Lemma get_weather_try_json arguments s :
  Weather.get_weather_try json_loads arguments = Ok s ->
  exists v, s = Json.dumps v.
Proof.
  unfold Weather.get_weather_try.
  intros (args & _ & (city & _ & (unit & _ & (weather & _ & Hs)%result_bind_Ok)
                        %result_bind_Ok)%result_bind_Ok)%result_bind_Ok.
  exists weather. by injection Hs.
Qed.

Lemma get_weather_json arguments :
  exists v, Weather.get_weather json_loads arguments = Json.dumps v.
Proof.
  unfold Weather.get_weather.
  destruct (Weather.get_weather_try json_loads arguments) as [s|e] eqn:E.
  - by apply get_weather_try_json in E.
  - by eexists.
Qed.

Lemma get_weather_try_invalid (arguments : string) e :
  json_loads arguments = Raise e ->
  Weather.get_weather_try json_loads (JStr arguments) = Raise e.
Proof. intros E. unfold Weather.get_weather_try. simpl. by rewrite E. Qed.

Lemma lookup_tool_registry (name : string) :
  Weather.lookup_tool (Weather.AVAILABLE_TOOLS json_loads) name
  = if String.eqb "get_weather" name
    then Some (Weather.get_weather json_loads) else None.
Proof. reflexivity. Qed.

Lemma execute_tool_unknown (name : string) arguments :
  name <> "get_weather" ->
  Weather.execute_tool json_loads (JStr name) arguments
  = Ok (Json.dumps (Weather.error_object ("Unknown function: " ++ name))).
Proof.
  intros Hname. unfold Weather.execute_tool.
  cbn [Py.str_of_hashable]. rewrite lookup_tool_registry.
  destruct (String.eqb_spec "get_weather" name) as [<-|_]; done.
Qed.

Lemma execute_tool_get_weather arguments :
  Weather.execute_tool json_loads (JStr "get_weather") arguments
  = Ok (Weather.get_weather json_loads arguments).
Proof. reflexivity. Qed.

(** A str is hashable: [execute_tool] returns for every str name. *)
Lemma execute_tool_str (name : string) arguments :
  exists output, Weather.execute_tool json_loads (JStr name) arguments = Ok output.
Proof.
  destruct (decide (name = "get_weather")) as [->|Hname].
  - rewrite execute_tool_get_weather. by eexists.
  - rewrite execute_tool_unknown by done. by eexists.
Qed.

(** C6. For a str name and a str of arguments [execute_tool] returns, and
    what it returns is the [json.dumps] of a value: for a name outside the
    registry the object with the one field "error" set to "Unknown
    function: " and the name; for [get_weather], when the arguments do not
    decode or the body of the tool raises [e], the object whose "error"
    field is "Failed to get weather: " and [str(e)]. *)
Theorem execute_tool_never_raises (name arguments : string) :
  (exists v, Weather.execute_tool json_loads (JStr name) (JStr arguments)
             = Ok (Json.dumps v))
  /\ (name <> "get_weather" ->
      Weather.execute_tool json_loads (JStr name) (JStr arguments)
      = Ok (Json.dumps (JDict [("error", JStr ("Unknown function: " ++ name))])))
  /\ (name = "get_weather" -> forall e,
      json_loads arguments = Raise e
      \/ Weather.get_weather_try json_loads (JStr arguments) = Raise e ->
      Weather.execute_tool json_loads (JStr name) (JStr arguments)
      = Ok (Json.dumps
              (JDict [("error", JStr ("Failed to get weather: " ++ exn_str e))]))).
Proof.
  split; [|split].
  - destruct (decide (name = "get_weather")) as [->|Hname].
    + rewrite execute_tool_get_weather.
      destruct (get_weather_json (JStr arguments)) as [v ->]. by exists v.
    + rewrite execute_tool_unknown by done. by eexists.
  - apply execute_tool_unknown.
  - intros -> e He. rewrite execute_tool_get_weather.
    assert (E : Weather.get_weather_try json_loads (JStr arguments) = Raise e).
    { destruct He as [He|He]; [by apply get_weather_try_invalid|done]. }
    unfold Weather.get_weather. by rewrite E.
Qed.

End ToolExecutor.

(** [execute_tool] on decoded inputs: a known city in Fahrenheit, arguments
    that are no JSON, a city that is no str, and a name that is no tool. *)
Example execute_tool_seattle :
  Weather.execute_tool Decoder.loads (JStr "get_weather")
    (JStr (Json.dumps (JDict [("city", JStr "Seattle"); ("unit", JStr "fahrenheit")])))
  ≫= Decoder.loads
  = Ok (JDict
      [ ("city", JStr "Seattle"); ("temperature", JInt 46);
        ("unit", JStr (PyStr.deg ++ "F")); ("condition", JStr "Rainy");
        ("humidity", JStr "85%"); ("wind", JStr "15 km/h");
        ("description", JStr ("The weather in Seattle is rainy with a temperature of 46"
           ++ PyStr.deg ++ "F. Humidity is at 85% with winds of 15 km/h.")) ]).
Proof. vm_compute. reflexivity. Qed.

Example execute_tool_bad_arguments :
  Weather.execute_tool Decoder.loads (JStr "get_weather") (JStr "{city")
  ≫= Decoder.loads
  = Ok (JDict [("error", JStr "Failed to get weather: Expecting property name enclosed in double quotes")]).
Proof. vm_compute. reflexivity. Qed.

Example execute_tool_city_not_str :
  Weather.execute_tool Decoder.loads (JStr "get_weather")
    (JStr (Json.dumps (JDict [("city", JInt 5)])))
  ≫= Decoder.loads
  = Ok (JDict [("error", JStr "Failed to get weather: 'int' object has no attribute 'lower'")]).
Proof. vm_compute. reflexivity. Qed.

Example execute_tool_unknown_name :
  Weather.execute_tool Decoder.loads (JStr "get_time") (JStr "{}") ≫= Decoder.loads
  = Ok (JDict [("error", JStr "Unknown function: get_time")]).
Proof. vm_compute. reflexivity. Qed.

Lemma execute_tool_never_raises_witness :
  Weather.execute_tool Decoder.loads (JStr "get_time") (JStr "{}")
  = Ok (Json.dumps (JDict [("error", JStr "Unknown function: get_time")]))
  /\ Weather.execute_tool Decoder.loads (JStr "get_weather") (JStr "{city")
     = Ok (Json.dumps (JDict [("error", JStr
          "Failed to get weather: Expecting property name enclosed in double quotes")])).
Proof.
  split.
  - apply (proj1 (proj2 (execute_tool_never_raises Decoder.loads "get_time" "{}"))).
    discriminate.
  - apply (proj2 (proj2 (execute_tool_never_raises Decoder.loads "get_weather" "{city"))
             eq_refl (Exc JSONDecodeError "Expecting property name enclosed in double quotes")).
    left. vm_compute. reflexivity.
Defined.

(** ** The function-call interceptor *)

Section InterceptorProperties.

Variable json_loads : string -> result json.

Lemma get_dict d k dflt :
  Py.get (JDict d) k dflt = Ok (default dflt (Py.assoc d k)).
Proof. unfold Py.get. by destruct (Py.assoc d k). Qed.

Lemma get_not_dict v k dflt :
  (forall d, v <> JDict d) -> exists e, Py.get v k dflt = Raise e.
Proof. intros Hv. destruct v; try by eexists. by destruct (Hv items). Qed.

Lemma eq_str_true v s : Py.eq_str v s = true <-> v = JStr s.
Proof.
  destruct v; simpl; try (split; [done|discriminate]).
  rewrite String.eqb_eq. split; [by intros ->|by intros [= ->]].
Qed.

(** What the [try] block does once the text has decoded to an object with
    the trigger's type. *)
Lemma try_block_on_trigger message d w :
  json_loads message = Ok (JDict d) ->
  Py.assoc d "type" = Some (JStr TRIGGER) ->
  try_handle_function_call_try json_loads message w
  = let call_id := default JNull (Py.assoc d "call_id") in
    let name := default JNull (Py.assoc d "name") in
    let arguments := default (JStr "{}") (Py.assoc d "arguments") in
    if negb (Py.truthy call_id) || negb (Py.truthy name) then (Ok false, w)
    else
      match Weather.execute_tool json_loads name arguments with
      | Ok output => (send_function_result call_id output ;; mret true) w
      | Raise e => (Raise e, w)
      end.
Proof.
  intros Hloads Htype.
  unfold try_handle_function_call_try, mbind, M_bind, lift.
  rewrite Hloads, !get_dict, Htype.
  cbn [default]. replace (Py.eq_str (JStr TRIGGER) TRIGGER) with true
    by (symmetry; by apply eq_str_true).
  cbn zeta.
  destruct (negb _ || negb _); [done|].
  by destruct (Weather.execute_tool _ _ _).
Qed.

Lemma try_block_off_trigger message d w :
  json_loads message = Ok (JDict d) ->
  Py.assoc d "type" <> Some (JStr TRIGGER) ->
  try_handle_function_call_try json_loads message w = (Ok false, w).
Proof.
  intros Hloads Htype.
  unfold try_handle_function_call_try, mbind, M_bind, lift.
  rewrite Hloads, get_dict.
  destruct (Py.eq_str _ TRIGGER) eqn:E; [|done].
  apply eq_str_true in E. destruct (Py.assoc d "type"); simpl in E; congruence.
Qed.

(** [try_handle_function_call] returns a bool whatever the frame and the
    connections are: both [except] clauses return [False]. *)
Lemma try_handle_function_call_returns message w :
  exists handled w',
    try_handle_function_call json_loads message w = (Ok handled, w').
Proof.
  unfold try_handle_function_call, try_except.
  destruct (try_handle_function_call_try json_loads message w) as [[b|e] w'];
    by eexists _, _.
Qed.

Lemma try_block_invalid message e w :
  json_loads message = Raise e ->
  try_handle_function_call_try json_loads message w = (Raise e, w).
Proof.
  intros Hloads. unfold try_handle_function_call_try, mbind, M_bind, lift.
  by rewrite Hloads.
Qed.

Lemma try_block_not_object message v w :
  json_loads message = Ok v -> (forall d, v <> JDict d) ->
  exists e, try_handle_function_call_try json_loads message w = (Raise e, w).
Proof.
  intros Hloads Hv. unfold try_handle_function_call_try, mbind, M_bind, lift.
  rewrite Hloads. destruct (get_not_dict v "type" JNull Hv) as [e ->].
  by exists e.
Qed.

Lemma missing_or_empty_falsy d k :
  missing_or_empty d k -> Py.truthy (default JNull (Py.assoc d k)) = false.
Proof. unfold missing_or_empty. by destruct (Py.assoc d k). Qed.

Lemma ws_send_azure f w :
  (0 < azure_left w)%nat ->
  ws_send Azure f w
  = (Ok tt, World (sessions w) (user_connections w) (user_requests w)
                  (wire w ++ [Sent Azure f]) (azure_left w - 1) (client_left w)).
Proof.
  intros Hopen. unfold ws_send. destruct (azure_left w) as [|n]; [lia|].
  by rewrite Nat.sub_1_r.
Qed.

Lemma ws_send_client f w :
  (0 < client_left w)%nat ->
  ws_send Client f w
  = (Ok tt, World (sessions w) (user_connections w) (user_requests w)
                  (wire w ++ [Sent Client f]) (azure_left w) (client_left w - 1)).
Proof.
  intros Hopen. unfold ws_send. destruct (client_left w) as [|n]; [lia|].
  by rewrite Nat.sub_1_r.
Qed.

Lemma send_function_result_ok call_id output w :
  (2 <= azure_left w)%nat ->
  send_function_result call_id output w
  = (Ok tt, World (sessions w) (user_connections w) (user_requests w)
                  (wire w ++ [Sent Azure (Text (Json.dumps (item_create call_id output)));
                              Sent Azure (Text (Json.dumps response_create))])
                  (azure_left w - 2) (client_left w)).
Proof.
  intros Hopen. unfold send_function_result, mbind, M_bind.
  rewrite ws_send_azure by lia.
  rewrite ws_send_azure by (cbn [azure_left]; lia).
  cbn [sessions user_connections user_requests wire azure_left client_left].
  rewrite <- app_assoc. do 2 f_equal. lia.
Qed.

(** The step of the upstream leg on a complete function call whose tool
    execution returns. *)
Lemma trigger_step message d call_id name output w :
  json_loads message = Ok (JDict d) ->
  Py.assoc d "type" = Some (JStr TRIGGER) ->
  Py.assoc d "call_id" = Some call_id -> Py.truthy call_id = true ->
  Py.assoc d "name" = Some name -> Py.truthy name = true ->
  Weather.execute_tool json_loads name (default (JStr "{}") (Py.assoc d "arguments"))
    = Ok output ->
  (2 <= azure_left w)%nat -> (1 <= client_left w)%nat ->
  try_handle_function_call json_loads message w
    = (Ok true, World (sessions w) (user_connections w) (user_requests w)
         (wire w ++ [Sent Azure (Text (Json.dumps (item_create call_id output)));
                     Sent Azure (Text (Json.dumps response_create))])
         (azure_left w - 2) (client_left w))
  /\ azure_to_client_step json_loads (Text message) w
    = (Ok tt, World (sessions w) (user_connections w) (user_requests w)
         (wire w ++ [Sent Azure (Text (Json.dumps (item_create call_id output)));
                     Sent Azure (Text (Json.dumps response_create));
                     Sent Client (Text message)])
         (azure_left w - 2) (client_left w - 1)).
Proof.
  intros Hloads Htype Hcid Tcid Hname Tname Hrun Hazure Hclient.
  assert (Hcall : try_handle_function_call json_loads message w
    = (Ok true, World (sessions w) (user_connections w) (user_requests w)
         (wire w ++ [Sent Azure (Text (Json.dumps (item_create call_id output)));
                     Sent Azure (Text (Json.dumps response_create))])
         (azure_left w - 2) (client_left w))).
  { unfold try_handle_function_call, try_except.
    rewrite (try_block_on_trigger message d w Hloads Htype).
    rewrite Hcid, Hname. cbn [from_option id]. cbn zeta.
    rewrite Tcid, Tname. cbn [negb orb]. rewrite Hrun.
    unfold mbind, M_bind. by rewrite send_function_result_ok. }
  split; [exact Hcall|].
  unfold azure_to_client_step, mbind, M_bind. rewrite Hcall.
  rewrite ws_send_client by (cbn [client_left]; lia).
  cbn [sessions user_connections user_requests wire azure_left client_left].
  by rewrite <- app_assoc.
Qed.

(** C1. A text frame from Azure that decodes to an object of type
    "response.function_call_arguments.done" with non-empty [call_id] and
    [name], on connections that take the sends: the tool executor returns
    an output for the name and the arguments (["{}"] when the frame has
    none), and the step sends to Azure the item-creation frame carrying the
    [call_id] and that output, then the response-creation frame, and after
    them the frame itself, unchanged, to the client. *)
Theorem function_call_intercepted (message cid nm : string)
    (d : list (string * json)) (w : world) :
  json_loads message = Ok (JDict d) ->
  Py.assoc d "type" = Some (JStr "response.function_call_arguments.done") ->
  Py.assoc d "call_id" = Some (JStr cid) -> cid <> "" ->
  Py.assoc d "name" = Some (JStr nm) -> nm <> "" ->
  (2 <= azure_left w)%nat -> (1 <= client_left w)%nat ->
  exists output,
    Weather.execute_tool json_loads (JStr nm)
      (default (JStr "{}") (Py.assoc d "arguments")) = Ok output
    /\ azure_to_client_step json_loads (Text message) w
      = (Ok tt, World (sessions w) (user_connections w) (user_requests w)
           (wire w ++
            [ Sent Azure (Text (Json.dumps
                (JDict [ ("type", JStr "conversation.item.create");
                         ("item", JDict [ ("type", JStr "function_call_output");
                                          ("call_id", JStr cid);
                                          ("output", JStr output) ]) ])));
              Sent Azure (Text (Json.dumps (JDict [ ("type", JStr "response.create") ])));
              Sent Client (Text message) ])
           (azure_left w - 2) (client_left w - 1)).
Proof.
  intros Hloads Htype Hcid Ncid Hname Nname Hazure Hclient.
  destruct (execute_tool_str json_loads nm
              (default (JStr "{}") (Py.assoc d "arguments"))) as [output Hrun].
  exists output. split; [exact Hrun|].
  apply (trigger_step message d (JStr cid) (JStr nm) output w); try done.
  - cbn [Py.truthy]. by apply negb_true_iff, String.eqb_neq.
  - cbn [Py.truthy]. by apply negb_true_iff, String.eqb_neq.
Qed.

(** C2. A frame that is no complete function call passes through: on a
    text frame [try_handle_function_call] returns [False] without raising
    and without touching the state, and the step only forwards the frame to
    the client. *)
Theorem non_trigger_passes_through (fr : frame) (w : world) :
  not_a_trigger json_loads fr ->
  (forall s, fr = Text s ->
             try_handle_function_call json_loads s w = (Ok false, w))
  /\ azure_to_client_step json_loads fr w = ws_send Client fr w.
Proof.
  intros Hfr.
  assert (Hcall : forall s, fr = Text s ->
            try_handle_function_call json_loads s w = (Ok false, w)).
  { intros s ->. cbn [not_a_trigger] in Hfr.
    unfold try_handle_function_call, try_except.
    destruct (json_loads s) as [v|e] eqn:Hloads.
    - destruct (Py.eq_str (default JNull
                  (match v with JDict d => Py.assoc d "type" | _ => None end))
                  TRIGGER) eqn:Htype.
      + apply eq_str_true in Htype. destruct v; try discriminate Htype.
        assert (Ht : Py.assoc items "type" = Some (JStr TRIGGER))
          by (destruct (Py.assoc items "type"); simpl in Htype; congruence).
        rewrite (try_block_on_trigger s items w Hloads Ht). cbn zeta.
        destruct Hfr as [Hfr|[Hfr|Hfr]]; [done| |];
          apply missing_or_empty_falsy in Hfr; rewrite Hfr; [done|].
        by rewrite orb_true_r.
      + assert (Hd : (exists d, v = JDict d) \/ (forall d, v <> JDict d))
          by (destruct v; try (right; discriminate); left; by eexists).
        destruct Hd as [[d ->]|Hd].
        * rewrite (try_block_off_trigger s d w Hloads); [done|].
          intros Ht. rewrite Ht in Htype. by vm_compute in Htype.
        * by destruct (try_block_not_object s v w Hloads Hd) as [e ->].
    - by rewrite (try_block_invalid s e w Hloads). }
  split; [exact Hcall|].
  destruct fr as [s|b]; [|done].
  unfold azure_to_client_step, mbind, M_bind. by rewrite (Hcall s eq_refl).
Qed.

(** A non-empty [name] that is a list or a dict is unhashable:
    [execute_tool] raises, the interceptor catches it, and the frame passes
    through with nothing sent to Azure. *)
Lemma unhashable_name_passes_through message d call_id name w :
  json_loads message = Ok (JDict d) ->
  Py.assoc d "type" = Some (JStr TRIGGER) ->
  Py.assoc d "call_id" = Some call_id -> Py.truthy call_id = true ->
  Py.assoc d "name" = Some name -> Py.truthy name = true ->
  Py.str_of_hashable name = None ->
  try_handle_function_call json_loads message w = (Ok false, w).
Proof.
  intros Hloads Htype Hcid Tcid Hname Tname Hhash.
  unfold try_handle_function_call, try_except.
  rewrite (try_block_on_trigger message d w Hloads Htype).
  rewrite Hcid, Hname. cbn [from_option id]. cbn zeta.
  rewrite Tcid, Tname. cbn [negb orb].
  unfold Weather.execute_tool. by rewrite Hhash.
Qed.

End InterceptorProperties.

(** ** Usage accounting on the two legs *)

Section LegCounters.

Variable json_loads : string -> result json.

Lemma with_message_count_same s : with_message_count s (message_count s) = s.
Proof. by destruct s. Qed.

Lemma keeps_ret {A : Type} (a : A) : keeps_sessions (mret a).
Proof. by intros w. Qed.

Lemma keeps_lift {A : Type} (r : result A) : keeps_sessions (lift r).
Proof. by intros w. Qed.

Lemma keeps_send to f : keeps_sessions (ws_send to f).
Proof.
  intros w. unfold ws_send.
  destruct to; [destruct (azure_left w)|destruct (client_left w)]; done.
Qed.

Lemma keeps_bind {A B : Type} (m : M A) (f : A -> M B) :
  keeps_sessions m -> (forall a, keeps_sessions (f a)) -> keeps_sessions (m ≫= f).
Proof.
  intros Hm Hf w. unfold mbind, M_bind. specialize (Hm w).
  destruct (m w) as [[a|e] w1]; simpl in *; [|done].
  by rewrite Hf.
Qed.

Lemma keeps_try {A : Type} (body : M A) (handler : exn -> M A) :
  keeps_sessions body -> (forall e, keeps_sessions (handler e)) ->
  keeps_sessions (try_except body handler).
Proof.
  intros Hb Hh w. unfold try_except. specialize (Hb w).
  destruct (body w) as [[a|e] w1]; simpl in *; [done|].
  by rewrite Hh.
Qed.

Lemma keeps_if {A : Type} (b : bool) (m1 m2 : M A) :
  keeps_sessions m1 -> keeps_sessions m2 -> keeps_sessions (if b then m1 else m2).
Proof. by destruct b. Qed.

Lemma keeps_try_handle_function_call message :
  keeps_sessions (try_handle_function_call json_loads message).
Proof.
  apply keeps_try; [|intros; apply keeps_ret].
  unfold try_handle_function_call_try.
  apply keeps_bind; [apply keeps_lift|intros data].
  apply keeps_bind; [apply keeps_lift|intros msg_type].
  apply keeps_if; [|apply keeps_ret].
  apply keeps_bind; [apply keeps_lift|intros call_id].
  apply keeps_bind; [apply keeps_lift|intros name].
  apply keeps_bind; [apply keeps_lift|intros arguments].
  apply keeps_if; [apply keeps_ret|].
  apply keeps_bind; [apply keeps_lift|intros output].
  apply keeps_bind; [|intros; apply keeps_ret].
  apply keeps_bind; [apply keeps_send|intros; apply keeps_send].
Qed.

Lemma keeps_azure_to_client_step message :
  keeps_sessions (azure_to_client_step json_loads message).
Proof.
  destruct message as [s|b]; [|apply keeps_send].
  apply keeps_bind; [apply keeps_try_handle_function_call|].
  intros handled. apply keeps_if; apply keeps_send.
Qed.

Lemma keeps_for_each body messages :
  (forall message, keeps_sessions (body message)) ->
  keeps_sessions (for_each body messages).
Proof.
  intros Hbody. induction messages as [|message rest IH]; [apply keeps_ret|].
  apply keeps_bind; [apply Hbody|intros; apply IH].
Qed.

(** The client leg, run on a session that is in the registry: it forwards
    a prefix of the incoming frames to Azure, in order, and adds to the
    session's count the number of str frames among them. *)
Lemma proxy_client_to_azure_counts incoming sid w s :
  sessions w !! sid = Some s ->
  exists k,
    wire (proxy_client_to_azure incoming sid w)
      = (wire w ++ (Sent Azure <$> take k incoming))%list
    /\ sessions (proxy_client_to_azure incoming sid w)
      = <[sid := with_message_count s
                   (message_count s + Z.of_nat (count_text (take k incoming)))]>
          (sessions w).
Proof.
  unfold proxy_client_to_azure.
  revert w s. induction incoming as [|message rest IH]; intros w s Hs.
  - exists 0%nat. simpl. rewrite app_nil_r, Z.add_0_r, with_message_count_same.
    by rewrite insert_id.
  - cbn [for_each]. unfold mbind, M_bind.
    destruct (azure_left w) as [|n] eqn:Hleft.
    + exists 0%nat.
      assert (Hstep : client_to_azure_step sid message w = (Raise connection_closed, w)).
      { destruct message; unfold client_to_azure_step, mbind, M_bind, ws_send;
          by rewrite Hleft. }
      rewrite Hstep. simpl.
      rewrite app_nil_r, Z.add_0_r, with_message_count_same. by rewrite insert_id.
    + destruct message as [m|b].
      * set (w1 := World (<[sid := with_message_count s (message_count s + 1)]> (sessions w))
                     (user_connections w) (user_requests w)
                     (wire w ++ [Sent Azure (Text m)]) n (client_left w)).
        assert (Hstep : client_to_azure_step sid (Text m) w = (Ok tt, w1)).
        { unfold client_to_azure_step, mbind, M_bind, ws_send, bump_message_count.
          rewrite Hleft. cbn [sessions]. by rewrite Hs. }
        rewrite Hstep.
        destruct (IH w1 (with_message_count s (message_count s + 1))) as [k [Hw Hm]].
        { subst w1. cbn [sessions]. apply lookup_insert_eq. }
        exists (S k). rewrite Hw, Hm. subst w1.
        cbn [wire sessions take fmap list_fmap count_text
             with_message_count message_count user_id mode created_at azure_ws
             client_ws agent_session].
        rewrite <- app_assoc, insert_insert_eq. split; [done|].
        do 2 f_equal. lia.
      * set (w1 := World (sessions w) (user_connections w) (user_requests w)
                     (wire w ++ [Sent Azure (Binary b)]) n (client_left w)).
        assert (Hstep : client_to_azure_step sid (Binary b) w = (Ok tt, w1)).
        { unfold client_to_azure_step, ws_send. by rewrite Hleft. }
        rewrite Hstep.
        destruct (IH w1 s) as [k [Hw Hm]]; [done|].
        exists (S k). rewrite Hw, Hm. subst w1.
        cbn [wire sessions take fmap list_fmap count_text].
        by rewrite <- app_assoc.
Qed.

(** C7, as the code has it. On the client leg of a session in the registry
    the frames reach Azure in order, and [message_count] grows by the
    number of str frames forwarded: a forwarded bytes frame does not change
    it, and it never decreases. The upstream leg does not touch the
    [sessions] dict. *)
Theorem message_count_by_leg :
  (forall incoming sid w s,
      sessions w !! sid = Some s ->
      exists k,
        wire (proxy_client_to_azure incoming sid w)
          = (wire w ++ (Sent Azure <$> take k incoming))%list
        /\ sessions (proxy_client_to_azure incoming sid w)
          = <[sid := with_message_count s
                       (message_count s + Z.of_nat (count_text (take k incoming)))]>
              (sessions w))
  /\ (forall incoming w,
      sessions (proxy_azure_to_client json_loads incoming w) = sessions w).
Proof.
  split; [apply proxy_client_to_azure_counts|].
  intros incoming w. unfold proxy_azure_to_client.
  apply keeps_for_each, keeps_azure_to_client_step.
Qed.

End LegCounters.

(** ** The relay on concrete frames *)

Example weather_call_decodes :
  Decoder.loads weather_call = Ok (JDict weather_call_fields).
Proof. vm_compute. reflexivity. Qed.

Example weather_call_wire :
  azure_to_client_step Decoder.loads (Text weather_call) voice_relay
  = (Ok tt,
     World (sessions voice_relay) (user_connections voice_relay)
           (user_requests voice_relay)
           [ Sent Azure (Text (Json.dumps
               (item_create (JStr "call_1") (Json.dumps paris_weather))));
             Sent Azure (Text (Json.dumps response_create));
             Sent Client (Text weather_call) ]
           6 7).
Proof. vm_compute. reflexivity. Qed.

Lemma function_call_intercepted_witness :
  exists output,
    Weather.execute_tool Decoder.loads (JStr "get_weather")
      (default (JStr "{}") (Py.assoc weather_call_fields "arguments")) = Ok output
    /\ azure_to_client_step Decoder.loads (Text weather_call) voice_relay
      = (Ok tt, World (sessions voice_relay) (user_connections voice_relay)
           (user_requests voice_relay)
           (wire voice_relay ++
            [ Sent Azure (Text (Json.dumps
                (JDict [ ("type", JStr "conversation.item.create");
                         ("item", JDict [ ("type", JStr "function_call_output");
                                          ("call_id", JStr "call_1");
                                          ("output", JStr output) ]) ])));
              Sent Azure (Text (Json.dumps (JDict [ ("type", JStr "response.create") ])));
              Sent Client (Text weather_call) ])
           (azure_left voice_relay - 2) (client_left voice_relay - 1)).
Proof.
  apply (function_call_intercepted Decoder.loads weather_call "call_1" "get_weather"
           weather_call_fields voice_relay).
  - vm_compute. reflexivity.
  - reflexivity.
  - reflexivity.
  - discriminate.
  - reflexivity.
  - discriminate.
  - vm_compute. lia.
  - vm_compute. lia.
Defined.

Lemma non_trigger_passes_through_witness :
  (try_handle_function_call Decoder.loads session_updated voice_relay
     = (Ok false, voice_relay)
   /\ try_handle_function_call Decoder.loads "audio delta" voice_relay
     = (Ok false, voice_relay)
   /\ try_handle_function_call Decoder.loads "[1, 2]" voice_relay
     = (Ok false, voice_relay)
   /\ try_handle_function_call Decoder.loads call_without_id voice_relay
     = (Ok false, voice_relay))
  /\ azure_to_client_step Decoder.loads (Binary [Byte.x52; Byte.x49]) voice_relay
     = ws_send Client (Binary [Byte.x52; Byte.x49]) voice_relay.
Proof.
  split; [split; [|split; [|split]]|].
  - apply (proj1 (non_trigger_passes_through Decoder.loads (Text session_updated)
                    voice_relay ltac:(vm_compute; left; discriminate))
                 session_updated eq_refl).
  - apply (proj1 (non_trigger_passes_through Decoder.loads (Text "audio delta")
                    voice_relay ltac:(vm_compute; exact I))
                 "audio delta" eq_refl).
  - apply (proj1 (non_trigger_passes_through Decoder.loads (Text "[1, 2]")
                    voice_relay ltac:(vm_compute; exact I))
                 "[1, 2]" eq_refl).
  - apply (proj1 (non_trigger_passes_through Decoder.loads (Text call_without_id)
                    voice_relay ltac:(vm_compute; right; left; reflexivity))
                 call_without_id eq_refl).
  - apply (proj2 (non_trigger_passes_through Decoder.loads
                    (Binary [Byte.x52; Byte.x49]) voice_relay I)).
Defined.

(** C7 as stated fails: a bytes frame from the client is forwarded to Azure
    and the session's [message_count] stays 0. *)
Lemma binary_frame_not_counted :
  wire (proxy_client_to_azure [Binary [Byte.x52; Byte.x49]] "s-1" voice_relay)
    = [Sent Azure (Binary [Byte.x52; Byte.x49])]
  /\ message_count <$> sessions voice_relay !! "s-1" = Some 0
  /\ message_count
       <$> sessions (proxy_client_to_azure [Binary [Byte.x52; Byte.x49]] "s-1" voice_relay)
           !! "s-1" = Some 0.
Proof. repeat split. Qed.

Example text_frames_counted :
  message_count
    <$> sessions (proxy_client_to_azure
                    [Text "a"; Binary [Byte.x52]; Text "b"] "s-1" voice_relay) !! "s-1"
  = Some 2.
Proof. reflexivity. Qed.

Lemma message_count_by_leg_witness :
  (exists k,
      wire (proxy_client_to_azure [Text "a"; Binary [Byte.x52]; Text "b"] "s-1" voice_relay)
        = (wire voice_relay
           ++ (Sent Azure <$> take k [Text "a"; Binary [Byte.x52]; Text "b"]))%list
      /\ sessions (proxy_client_to_azure [Text "a"; Binary [Byte.x52]; Text "b"] "s-1"
                     voice_relay)
        = <[ "s-1" := with_message_count (Session "alice" "voice" 0 None None 0 None)
               (0 + Z.of_nat (count_text (take k [Text "a"; Binary [Byte.x52]; Text "b"])))]>
            (sessions voice_relay))
  /\ sessions (proxy_azure_to_client Decoder.loads [Text weather_call] voice_relay)
     = sessions voice_relay.
Proof.
  split.
  - apply (proj1 (message_count_by_leg Decoder.loads)
             [Text "a"; Binary [Byte.x52]; Text "b"] "s-1" voice_relay
             (Session "alice" "voice" 0 None None 0 None)).
    reflexivity.
  - apply (proj2 (message_count_by_leg Decoder.loads)).
Defined.

(** * Further properties *)

(** ** The registry under the router and the reaper *)

Section RegistryLifeCycle.

Implicit Types (w : world) (uid sid : string).

Lemma sessions_cleanup w sid :
  sessions (cleanup_session sid w) = delete sid (sessions w).
Proof.
  unfold cleanup_session. destruct (sessions w !! sid) as [s|] eqn:E.
  - by destruct (touch _ _ _) as [c uc].
  - symmetry. by apply delete_id.
Qed.

Lemma requests_cleanup w sid :
  user_requests (cleanup_session sid w) = user_requests w.
Proof.
  unfold cleanup_session. destruct (sessions w !! sid) as [s|]; [|done].
  by destruct (touch _ _ _) as [c uc].
Qed.


Lemma consistent_cleanup w sid :
  consistent w -> consistent (cleanup_session sid w).
Proof.
  intros Hc uid sid'. destruct (sessions w !! sid) as [s|] eqn:E.
  - rewrite (conns_cleanup _ _ s), (owner_cleanup _ _ s) by done.
    pose proof (Hc uid sid') as H1. pose proof (Hc uid sid) as H2.
    assert (Hown : owner w sid = Some (user_id s)) by (unfold owner; by rewrite E).
    rewrite Hown in H2.
    repeat case_decide; subst; set_unfold; naive_solver.
  - by rewrite cleanup_session_absent.
Qed.


Lemma sessions_create w uid md sid now :
  sessions (snd (create_session uid md sid now w))
  = <[sid := Session uid md now None None 0 None]> (sessions w).
Proof.
  unfold create_session. simpl. by destruct (touch _ _ _) as [c uc].
Qed.


Lemma requests_check_other w uid now u :
  u <> uid -> requests (snd (check_rate_limit uid now w)) u = requests w u.
Proof.
  intros Hu. unfold check_rate_limit, requests.
  destruct (touch (user_connections w) uid ∅) as [c uc]. simpl.
  case_match; [done|].
  pose proof (touch_snd_lookup (user_requests w) uid [] u) as Hs.
  destruct (touch (user_requests w) uid []) as [r ur]. simpl in *.
  case_match; simpl; by rewrite lookup_insert_ne.
Qed.

(** X7. An admission check concerns one identity: it changes neither the
    sessions, nor any identity's set of connections, nor the timestamps of
    any other identity. *)
Theorem check_rate_limit_isolated w uid now :
  sessions (snd (check_rate_limit uid now w)) = sessions w
  /\ (forall u, conns (snd (check_rate_limit uid now w)) u = conns w u)
  /\ (forall u, u <> uid ->
                requests (snd (check_rate_limit uid now w)) u = requests w u).
Proof.
  split; [apply sessions_check|]. split.
  - intros u. apply conns_check.
  - intros u. apply requests_check_other.
Qed.

Lemma conns_bind_client w sid handle u :
  conns (bind_client sid handle w) u = conns w u.
Proof. unfold bind_client. by destruct (sessions w !! sid). Qed.



Lemma check_allowed_below_cap w uid now :
  fst (fst (check_rate_limit uid now w)) = true ->
  Z.of_nat (size (conns w uid)) < MAX_CONNECTIONS_PER_USER
  /\ Z.of_nat (length (recent w uid now)) < MAX_REQUESTS_PER_MINUTE.
Proof.
  intros Hok.
  destruct (Z_lt_le_dec (Z.of_nat (size (conns w uid))) MAX_CONNECTIONS_PER_USER)
    as [Hcap|Hcap].
  - split; [done|].
    destruct (check_rate_limit_below_cap w uid now Hcap) as [Hdeny _].
    destruct (Z_lt_le_dec (Z.of_nat (length (recent w uid now)))
                MAX_REQUESTS_PER_MINUTE) as [Hn|Hn]; [done|].
    destruct (Hdeny Hn) as [Hf _]. by rewrite Hf in Hok.
  - destruct (check_rate_limit_at_cap w uid now Hcap) as [Hf _].
    by rewrite Hf in Hok.
Qed.

Lemma check_denied_reason w uid now :
  fst (fst (check_rate_limit uid now w)) = false ->
  snd (fst (check_rate_limit uid now w)) = CONCURRENCY_REASON
  \/ snd (fst (check_rate_limit uid now w)) = RATE_REASON.
Proof.
  intros Hno.
  destruct (Z_lt_le_dec (Z.of_nat (size (conns w uid))) MAX_CONNECTIONS_PER_USER)
    as [Hcap|Hcap].
  - destruct (check_rate_limit_below_cap w uid now Hcap) as [Hdeny Hallow].
    destruct (Z_lt_le_dec (Z.of_nat (length (recent w uid now)))
                MAX_REQUESTS_PER_MINUTE) as [Hn|Hn].
    + destruct (Hallow Hn) as [Hf _]. by rewrite Hf in Hno.
    + destruct (Hdeny Hn) as [Hf _]. right. by rewrite Hf.
  - destruct (check_rate_limit_at_cap w uid now Hcap) as [Hf _].
    left. by rewrite Hf.
Qed.

Lemma accept_connection_cases websocket handle md uuid_hex sid now now' w :
  let uid := authenticate_user websocket uuid_hex in
  let out := accept_connection websocket handle md uuid_hex sid now now' w in
  match fst out with
  | Closed code reason =>
      code = 1008
      /\ (reason = "Authentication failed" \/ reason = CONCURRENCY_REASON
          \/ reason = RATE_REASON)
      /\ sessions (snd out) = sessions w
      /\ (forall u, conns (snd out) u = conns w u)
  | Serving sid' =>
      sid' = sid /\ uid <> ""
      /\ Z.of_nat (size (conns w uid)) < MAX_CONNECTIONS_PER_USER
      /\ Z.of_nat (length (recent w uid now)) < MAX_REQUESTS_PER_MINUTE
      /\ sessions (snd out)
         = <[sid := Session uid md now' None (Some handle) 0 None]> (sessions w)
      /\ (forall u, conns (snd out) u
                    = if decide (u = uid) then conns w uid ∪ {[sid]} else conns w u)
  end.
Proof.
  intros uid out. subst out. unfold accept_connection. fold uid.
  destruct (String.eqb_spec uid "") as [Hempty|Hid]; [by cbn; auto 6|].
  pose proof (check_allowed_below_cap w uid now) as Hok.
  pose proof (check_denied_reason w uid now) as Hno.
  pose proof (sessions_check w uid now) as Hs.
  pose proof (conns_check w uid now) as Hc.
  destruct (check_rate_limit uid now w) as [[allowed reason] w1]. simpl in *.
  destruct allowed.
  - destruct (Hok eq_refl) as [Hcap Hrate].
    pose proof (sessions_create w1 uid md sid now') as Hsc.
    pose proof (conns_create w1 uid md sid now') as Hcc.
    destruct (create_session uid md sid now' w1) as [sid' w2] eqn:Ec.
    assert (sid' = sid) as ->.
    { unfold create_session in Ec. destruct (touch _ _ _). by injection Ec. }
    simpl in *. repeat split; try done.
    + unfold bind_client. rewrite Hsc, lookup_insert_eq. simpl.
      by rewrite insert_insert_eq, Hs.
    + intros u. rewrite conns_bind_client, Hcc, !Hc. done.
  - simpl. repeat split; try done.
    destruct (Hno eq_refl) as [->| ->]; auto.
Qed.

(** X1. What the admission phase of a connection leaves behind. Turned
    away, the connection is closed with status 1008 and one of three
    reasons, no session is created and no identity's set of connections
    changes. Accepted, the identity is not empty, was below both limits,
    and gets exactly the new session, bound to the websocket, with a count
    of 0. *)
Theorem accept_connection_outcome websocket handle md uuid_hex sid now now' w :
  let uid := authenticate_user websocket uuid_hex in
  let out := accept_connection websocket handle md uuid_hex sid now now' w in
  match fst out with
  | Closed code reason =>
      code = 1008
      /\ (reason = "Authentication failed" \/ reason = CONCURRENCY_REASON
          \/ reason = RATE_REASON)
      /\ sessions (snd out) = sessions w
      /\ (forall u, conns (snd out) u = conns w u)
  | Serving sid' =>
      sid' = sid /\ uid <> ""
      /\ Z.of_nat (size (conns w uid)) < MAX_CONNECTIONS_PER_USER
      /\ Z.of_nat (length (recent w uid now)) < MAX_REQUESTS_PER_MINUTE
      /\ sessions (snd out)
         = <[sid := Session uid md now' None (Some handle) 0 None]> (sessions w)
      /\ (forall u, conns (snd out) u
                    = if decide (u = uid) then conns w uid ∪ {[sid]} else conns w u)
  end.
Proof. apply accept_connection_cases. Qed.

Lemma stable_ret {A : Type} (a : A) : registry_stable (mret a).
Proof. by intros w. Qed.

Lemma stable_send to f : registry_stable (ws_send to f).
Proof.
  intros w. unfold ws_send.
  destruct to; [destruct (azure_left w)|destruct (client_left w)]; done.
Qed.

Lemma stable_bump sid : registry_stable (bump_message_count sid).
Proof.
  intros w. unfold bump_message_count.
  destruct (sessions w !! sid) as [s|] eqn:E; [|done].
  repeat split. intros sid'. unfold owner. simpl.
  destruct (decide (sid' = sid)) as [->|Hne].
  - by rewrite lookup_insert_eq, E.
  - by rewrite lookup_insert_ne.
Qed.

Lemma stable_bind {A B : Type} (m : M A) (f : A -> M B) :
  registry_stable m -> (forall a, registry_stable (f a)) ->
  registry_stable (m ≫= f).
Proof.
  intros Hm Hf w. unfold mbind, M_bind.
  destruct (Hm w) as (H1 & H2 & H3).
  destruct (m w) as [[a|e] w1]; simpl in *; [|done].
  destruct (Hf a w1) as (G1 & G2 & G3).
  rewrite G1, G2. repeat split; try done. intros sid. by rewrite G3.
Qed.

Lemma stable_for_each body messages :
  (forall message, registry_stable (body message)) ->
  registry_stable (for_each body messages).
Proof.
  intros Hbody. induction messages as [|message rest IH]; [apply stable_ret|].
  apply stable_bind; [apply Hbody|intros; apply IH].
Qed.

Lemma stable_client_leg incoming sid :
  registry_stable (for_each (client_to_azure_step sid) incoming).
Proof.
  apply stable_for_each. intros [m|b]; [|apply stable_send].
  apply stable_bind; [apply stable_send|intros; apply stable_bump].
Qed.






Lemma cleanup_all_keeps (P : world -> Prop) sids w :
  (forall w' sid, P w' -> P (cleanup_session sid w')) ->
  P w -> P (cleanup_all sids w).
Proof.
  intros Hstep. unfold cleanup_all. revert w.
  induction sids as [|sid rest IH]; intros w Hw; [done|].
  simpl. apply IH, Hstep, Hw.
Qed.







Lemma sessions_cleanup_all sids w :
  sessions (cleanup_all sids w)
  = filter (fun kv => kv.1 ∉ sids) (sessions w).
Proof.
  unfold cleanup_all. revert w. induction sids as [|sid rest IH]; intros w.
  - simpl. symmetry. apply map_filter_id. intros i x _. apply not_elem_of_nil.
  - simpl. rewrite IH, sessions_cleanup.
    apply map_eq. intros i. apply option_eq. intros x.
    rewrite !map_lookup_filter_Some, lookup_delete_Some, not_elem_of_cons.
    simpl. naive_solver.
Qed.

Lemma elem_of_stale_sessions now w sid :
  sid ∈ stale_sessions now w
  <-> exists s, sessions w !! sid = Some s /\ is_stale now s.
Proof.
  unfold stale_sessions. rewrite list_elem_of_fmap. split.
  - intros [[k s] [-> Hin]]. apply elem_of_map_to_list in Hin.
    apply map_lookup_filter_Some in Hin as [E Hst]. by exists s.
  - intros [s [E Hst]]. exists (sid, s). split; [done|].
    apply elem_of_map_to_list. by apply map_lookup_filter_Some.
Qed.

(** X5. One sweep of the reaper, in whatever order it visits the stale ids:
    the sessions left are exactly those at most 3600 seconds old, the
    recorded timestamps are untouched, and when registry and ledger agreed
    before, each identity's set of connections afterwards is the set of
    its sessions that were not stale. *)
Theorem reaper_removes_stale now w order :
  order ≡ₚ stale_sessions now w ->
  sessions (cleanup_all order w)
    = filter (fun kv => ~ is_stale now kv.2) (sessions w)
  /\ user_requests (cleanup_all order w) = user_requests w
  /\ (consistent w ->
      forall uid sid,
        sid ∈ conns (cleanup_all order w) uid
        <-> exists s, sessions w !! sid = Some s /\ user_id s = uid
                      /\ ~ is_stale now s).
Proof.
  intros Hperm.
  assert (Hs : sessions (cleanup_all order w)
               = filter (fun kv => ~ is_stale now kv.2) (sessions w)).
  { rewrite sessions_cleanup_all. apply map_filter_ext. intros i x E. simpl.
    rewrite Hperm, elem_of_stale_sessions. split.
    - intros Hn Hst. apply Hn. by exists x.
    - intros Hn [s [E' Hst]]. rewrite E in E'. injection E' as <-. done. }
  split; [exact Hs|]. split.
  - apply (cleanup_all_keeps (fun w' => user_requests w' = user_requests w));
      [|done].
    intros w' sid Hw'. by rewrite requests_cleanup.
  - intros Hc uid sid.
    assert (Hc' : consistent (cleanup_all order w))
      by (apply cleanup_all_keeps; [apply consistent_cleanup|done]).
    rewrite (Hc' uid sid). unfold owner. rewrite Hs. split.
    + destruct (filter _ (sessions w) !! sid) as [s|] eqn:E; [|done].
      intros [= <-]. apply map_lookup_filter_Some in E as [E Hst]. by exists s.
    + intros (s & E & <- & Hst).
      assert (filter (fun kv => ~ is_stale now kv.2) (sessions w) !! sid = Some s)
        as -> by (by apply map_lookup_filter_Some).
      done.
Qed.

(** X6. A connection that was accepted and whose [finally] block has run
    leaves the registry as it found it: after any frames on the client
    leg, the sessions and every identity's set of connections are those
    from before the connection. *)
Theorem connection_leaves_no_session websocket handle md uuid_hex sid now now'
    incoming w session_id :
  consistent w -> sessions w !! sid = None ->
  fst (accept_connection websocket handle md uuid_hex sid now now' w)
    = Serving session_id ->
  let w1 := snd (accept_connection websocket handle md uuid_hex sid now now' w) in
  let w2 := finish_connection (Serving session_id)
              (proxy_client_to_azure incoming session_id w1) in
  sessions w2 = sessions w /\ (forall u, conns w2 u = conns w u).
Proof.
  intros Hc Hfresh Hserve.
  pose proof (accept_connection_cases websocket handle md uuid_hex sid now now' w)
    as Hout. cbv zeta in Hout. rewrite Hserve in Hout.
  destruct Hout as (-> & _ & _ & _ & Hs1 & Hc1).
  cbv zeta. cbn [finish_connection].
  set (uid := authenticate_user websocket uuid_hex) in *.
  set (w1 := snd (accept_connection websocket handle md uuid_hex sid now now' w)) in *.
  assert (E1 : sessions w1 !! sid = Some (Session uid md now' None (Some handle) 0 None))
    by (rewrite Hs1; apply lookup_insert_eq).
  destruct (proxy_client_to_azure_counts incoming sid w1 _ E1) as [k [_ Hs2]].
  destruct (stable_client_leg incoming sid w1) as (Huc & _ & _).
  fold (proxy_client_to_azure incoming sid w1) in Huc.
  set (w2 := proxy_client_to_azure incoming sid w1) in *.
  assert (E2 : exists s, sessions w2 !! sid = Some s /\ user_id s = uid)
    by (rewrite Hs2, lookup_insert_eq; by eexists).
  destruct E2 as [s [E2 Hown]].
  split.
  - rewrite sessions_cleanup, Hs2, Hs1, delete_insert_eq. by apply delete_insert_id.
  - intros u. rewrite (conns_cleanup w2 sid s u E2), Hown.
    assert (Hc2 : forall u', conns w2 u' = conns w1 u')
      by (intros u'; unfold conns; by rewrite Huc).
    rewrite !Hc2, !Hc1.
    assert (Hnot : sid ∉ conns w uid).
    { intros Hin. apply Hc in Hin. unfold owner in Hin. by rewrite Hfresh in Hin. }
    case_decide; [subst u; set_solver|done].
Qed.

(** X22. A connection without a bearer token gets an identity of its own,
    and when that identity has no entry in the ledgers yet the connection
    is accepted whatever the other identities have used up: the two limits
    bind only connections that present the same token again. *)
Theorem anonymous_connection_accepted websocket handle md uuid_hex sid now now' w :
  websocket = NoRequest \/ websocket = Request None ->
  user_connections w !! ("anonymous-" ++ PyStr.take 8 uuid_hex) = None ->
  user_requests w !! ("anonymous-" ++ PyStr.take 8 uuid_hex) = None ->
  fst (accept_connection websocket handle md uuid_hex sid now now' w) = Serving sid.
Proof.
  intros Hws Hconns Hreqs.
  assert (Hid : authenticate_user websocket uuid_hex
                = "anonymous-" ++ PyStr.take 8 uuid_hex)
    by (by destruct Hws as [-> | ->]).
  unfold accept_connection. rewrite Hid.
  set (uid := "anonymous-" ++ PyStr.take 8 uuid_hex) in *.
  assert (Hcap : Z.of_nat (size (conns w uid)) < MAX_CONNECTIONS_PER_USER)
    by (unfold conns; by rewrite Hconns).
  destruct (check_rate_limit_below_cap w uid now Hcap) as [_ Hallow].
  assert (Hrate : Z.of_nat (length (recent w uid now)) < MAX_REQUESTS_PER_MINUTE)
    by (unfold recent, requests; by rewrite Hreqs).
  destruct (Hallow Hrate) as [Hok _].
  change (String.eqb uid "") with false. cbv iota.
  destruct (check_rate_limit uid now w) as [[allowed reason] w1].
  simpl in Hok. injection Hok as -> ->.
  unfold create_session. by destruct (touch _ _ _).
Qed.

End RegistryLifeCycle.

(** ** The weather tool *)

Section WeatherTool.

Variable json_loads : string -> result json.

(** X14. [celsius_to_fahrenheit] rounds the exact conversion down by less than
    one degree, and keeps the order of temperatures. *)
Theorem celsius_to_fahrenheit_bounds (celsius : Z) :
  5 * (Weather.celsius_to_fahrenheit celsius - 32) <= 9 * celsius
    < 5 * (Weather.celsius_to_fahrenheit celsius - 32) + 5
  /\ (forall warmer, celsius <= warmer ->
        Weather.celsius_to_fahrenheit celsius
        <= Weather.celsius_to_fahrenheit warmer).
Proof.
  unfold Weather.celsius_to_fahrenheit. split.
  - pose proof (Z.div_mod (celsius * 9) 5 ltac:(lia)).
    pose proof (Z.mod_pos_bound (celsius * 9) 5 ltac:(lia)). lia.
  - intros warmer Hle.
    assert (celsius * 9 / 5 <= warmer * 9 / 5)
      by (apply Z.div_le_mono; lia).
    lia.
Qed.

(** X15. For every city name, known or not, the answer in Fahrenheit carries
    the conversion of the temperature of the answer in Celsius and the
    unit of its own; the other fields but the description are the same. *)
Theorem fahrenheit_converts_celsius (city : string) :
  exists t dc df,
    Weather.get_weather_for_city (JStr city) (JStr "celsius") = Ok (JDict dc)
    /\ Weather.get_weather_for_city (JStr city) (JStr "fahrenheit") = Ok (JDict df)
    /\ Py.assoc dc "temperature" = Some (JInt t)
    /\ Py.assoc df "temperature" = Some (JInt (Weather.celsius_to_fahrenheit t))
    /\ Py.assoc dc "unit" = Some (JStr (PyStr.deg ++ "C"))
    /\ Py.assoc df "unit" = Some (JStr (PyStr.deg ++ "F"))
    /\ (forall k, k = "city" \/ k = "condition" \/ k = "humidity" \/ k = "wind" ->
                  Py.assoc dc k = Py.assoc df k).
Proof.
  unfold Weather.get_weather_for_city.
  change (Py.eq_str (JStr "celsius") "fahrenheit") with false.
  change (Py.eq_str (JStr "fahrenheit") "fahrenheit") with true.
  destruct (Weather.lookup_city Weather.WEATHER_DATA (PyStr.lower city))
    as [[[[temp_c condition] humidity] wind_kph]|].
  - exists temp_c. do 2 eexists. repeat split.
    intros k [->|[->|[->| ->]]]; reflexivity.
  - exists 20. do 2 eexists. repeat split.
    intros k [->|[->|[->| ->]]]; reflexivity.
Qed.

(** X16. The city is matched whatever its case, the unit only as the exact
    word: two spellings of a city that agree in lower case give the same
    weather, and every unit other than the str ["fahrenheit"] gives the
    answer in Celsius. *)
Theorem city_any_case_unit_exact (city city' : string) (unit : json) :
  (PyStr.lower city = PyStr.lower city' ->
   exists d d',
     Weather.get_weather_for_city (JStr city) unit = Ok (JDict d)
     /\ Weather.get_weather_for_city (JStr city') unit = Ok (JDict d')
     /\ (forall k, k <> "city" -> k <> "description" ->
                   Py.assoc d k = Py.assoc d' k))
  /\ (Py.eq_str unit "fahrenheit" = false ->
      Weather.get_weather_for_city (JStr city) unit
      = Weather.get_weather_for_city (JStr city) (JStr "celsius")).
Proof.
  split.
  - intros Hlower. unfold Weather.get_weather_for_city. rewrite Hlower.
    destruct (Weather.lookup_city Weather.WEATHER_DATA (PyStr.lower city'))
      as [[[[temp_c condition] humidity] wind_kph]|];
      do 2 eexists; (split; [reflexivity|]); (split; [reflexivity|]);
      intros k Hcity Hdesc; cbn [Py.assoc];
      (destruct (String.eqb_spec "city" k) as [<-|_]; [done|]);
      destruct (String.eqb_spec "description" k) as [<-|_]; done.
  - intros Hunit. unfold Weather.get_weather_for_city. rewrite Hunit.
    by change (Py.eq_str (JStr "celsius") "fahrenheit") with false.
Qed.

(** X13. [execute_tool] raises exactly for a name that is a list or a dict,
    with a [TypeError]; and [get_weather] answers arguments that are not a
    str with the error object that names their type. *)
Theorem execute_tool_raises_iff_unhashable (name arguments : json) :
  ((exists e, Weather.execute_tool json_loads name arguments = Raise e)
   <-> Py.str_of_hashable name = None)
  /\ (Py.str_of_hashable name = None ->
      Weather.execute_tool json_loads name arguments
      = Raise (Exc TypeError ("unhashable type: '" ++ Py.type_name name ++ "'")))
  /\ ((forall s, arguments <> JStr s) ->
      Weather.execute_tool json_loads (JStr "get_weather") arguments
      = Ok (Json.dumps (Weather.error_object
              ("Failed to get weather: the JSON object must be str, bytes or "
               ++ "bytearray, not " ++ Py.type_name arguments)))).
Proof.
  split; [|split].
  - unfold Weather.execute_tool. split.
    + intros [e He]. destruct (Py.str_of_hashable name) as [shown|]; [|done].
      destruct name; try discriminate He.
      by destruct (Weather.lookup_tool _ _).
    + intros ->. by eexists.
  - intros Hname. unfold Weather.execute_tool. by rewrite Hname.
  - intros Hargs. rewrite execute_tool_get_weather. f_equal.
    unfold Weather.get_weather, Weather.get_weather_try, Weather.loads.
    destruct arguments; try reflexivity. by destruct (Hargs s).
Qed.

(** X24. The defaults of [get_weather]: arguments that decode to an object
    without [city] are answered as for the city "Unknown", and without
    [unit] in Celsius; in particular the object with no field at all gets
    the moderate 20 degrees of an unknown city. *)
Theorem get_weather_defaults (arguments : string) (d : list (string * json)) :
  json_loads arguments = Ok (JDict d) ->
  (Py.assoc d "city" = None ->
   Weather.get_weather json_loads (JStr arguments)
   = match Weather.get_weather_for_city (JStr "Unknown")
             (default (JStr "celsius") (Py.assoc d "unit")) with
     | Ok weather => Json.dumps weather
     | Raise e => Json.dumps (Weather.error_object
                                ("Failed to get weather: " ++ exn_str e))
     end)
  /\ (Py.assoc d "unit" = None ->
      Weather.get_weather json_loads (JStr arguments)
      = match Weather.get_weather_for_city
                (default (JStr "Unknown") (Py.assoc d "city")) (JStr "celsius") with
        | Ok weather => Json.dumps weather
        | Raise e => Json.dumps (Weather.error_object
                                   ("Failed to get weather: " ++ exn_str e))
        end)
  /\ (d = [] ->
      Weather.get_weather json_loads (JStr arguments)
      = Json.dumps (JDict
          [ ("city", JStr "Unknown"); ("temperature", JInt 20);
            ("unit", JStr (PyStr.deg ++ "C")); ("condition", JStr "Moderate");
            ("humidity", JStr "50%"); ("wind", JStr "10 km/h");
            ("description", JStr ("Weather data for Unknown: Temperature is 20"
               ++ PyStr.deg ++ "C with moderate conditions.")) ])).
Proof.
  intros Hloads.
  assert (Hrun : Weather.get_weather json_loads (JStr arguments)
    = match Weather.get_weather_for_city
              (default (JStr "Unknown") (Py.assoc d "city"))
              (default (JStr "celsius") (Py.assoc d "unit")) with
      | Ok weather => Json.dumps weather
      | Raise e => Json.dumps (Weather.error_object
                                 ("Failed to get weather: " ++ exn_str e))
      end).
  { unfold Weather.get_weather, Weather.get_weather_try, Weather.loads.
    rewrite Hloads. unfold mbind, result_bind. rewrite !get_dict.
    by destruct (Weather.get_weather_for_city _ _). }
  split; [|split].
  - intros Hcity. by rewrite Hrun, Hcity.
  - intros Hunit. by rewrite Hrun, Hunit.
  - intros ->. rewrite Hrun. reflexivity.
Qed.

End WeatherTool.

(** ** The relay when things go wrong *)

Section RelayEdges.

Variable json_loads : string -> result json.

Lemma to_client_app evs evs' :
  to_client (evs ++ evs') = (to_client evs ++ to_client evs')%list.
Proof.
  induction evs as [|[[|] f] evs IH]; simpl; [done|done|by rewrite IH].
Qed.

Lemma silent_ret {A : Type} (a : A) : silent_to_client (mret a).
Proof. by intros w. Qed.

Lemma silent_lift {A : Type} (r : result A) : silent_to_client (lift r).
Proof. by intros w. Qed.

Lemma silent_send_azure f : silent_to_client (ws_send Azure f).
Proof.
  intros w. unfold ws_send. destruct (azure_left w); [done|].
  simpl. split; [done|]. rewrite to_client_app. simpl. by rewrite app_nil_r.
Qed.

Lemma silent_bind {A B : Type} (m : M A) (f : A -> M B) :
  silent_to_client m -> (forall a, silent_to_client (f a)) ->
  silent_to_client (m ≫= f).
Proof.
  intros Hm Hf w. unfold mbind, M_bind. destruct (Hm w) as [H1 H2].
  destruct (m w) as [[a|e] w1]; simpl in *; [|done].
  destruct (Hf a w1) as [G1 G2]. by rewrite G1, G2.
Qed.

Lemma silent_try {A : Type} (body : M A) (handler : exn -> M A) :
  silent_to_client body -> (forall e, silent_to_client (handler e)) ->
  silent_to_client (try_except body handler).
Proof.
  intros Hb Hh w. unfold try_except. destruct (Hb w) as [H1 H2].
  destruct (body w) as [[a|e] w1]; simpl in *; [done|].
  destruct (Hh e w1) as [G1 G2]. by rewrite G1, G2.
Qed.

Lemma silent_if {A : Type} (b : bool) (m1 m2 : M A) :
  silent_to_client m1 -> silent_to_client m2 ->
  silent_to_client (if b then m1 else m2).
Proof. by destruct b. Qed.

Lemma silent_try_handle_function_call message :
  silent_to_client (try_handle_function_call json_loads message).
Proof.
  apply silent_try; [|intros; apply silent_ret].
  unfold try_handle_function_call_try.
  apply silent_bind; [apply silent_lift|intros data].
  apply silent_bind; [apply silent_lift|intros msg_type].
  apply silent_if; [|apply silent_ret].
  apply silent_bind; [apply silent_lift|intros call_id].
  apply silent_bind; [apply silent_lift|intros name].
  apply silent_bind; [apply silent_lift|intros arguments].
  apply silent_if; [apply silent_ret|].
  apply silent_bind; [apply silent_lift|intros output].
  apply silent_bind; [|intros; apply silent_ret].
  apply silent_bind; [apply silent_send_azure|intros; apply silent_send_azure].
Qed.

(** One step of the upstream leg, seen from the client: the frame arrives,
    unless the connection to the client is closed, and then the step
    raises and nothing arrives. *)
Lemma azure_to_client_step_client message w :
  match client_left w with
  | O => exists e w', azure_to_client_step json_loads message w = (Raise e, w')
                      /\ to_client (wire w') = to_client (wire w)
  | S n => exists w', azure_to_client_step json_loads message w = (Ok tt, w')
                      /\ to_client (wire w') = (to_client (wire w) ++ [message])%list
                      /\ client_left w' = n
  end.
Proof.
  assert (Hsend : forall w0,
    match client_left w0 with
    | O => ws_send Client message w0 = (Raise connection_closed, w0)
    | S n => exists w', ws_send Client message w0 = (Ok tt, w')
               /\ to_client (wire w') = (to_client (wire w0) ++ [message])%list
               /\ client_left w' = n
    end).
  { intros w0. unfold ws_send. destruct (client_left w0); [done|].
    eexists. split; [done|]. simpl. by rewrite to_client_app. }
  destruct message as [s|b].
  - unfold azure_to_client_step, mbind, M_bind.
    destruct (silent_try_handle_function_call s w) as [H1 H2].
    destruct (try_handle_function_call_returns json_loads s w) as (handled & w1 & E).
    rewrite E in *. simpl in H1, H2.
    specialize (Hsend w1). rewrite H1 in Hsend.
    destruct (client_left w) as [|n].
    + exists connection_closed, w1. by destruct handled; rewrite Hsend.
    + destruct Hsend as (w' & Es & Hw & Hl). exists w'.
      rewrite <- H2. by destruct handled; rewrite Es.
  - unfold azure_to_client_step. specialize (Hsend w).
    destruct (client_left w) as [|n].
    + by exists connection_closed, w.
    + destruct Hsend as (w' & Es & Hw & Hl). by exists w'.
Qed.

(** X9. The upstream leg hands the client the frames of Azure unchanged and in
    their order, intercepted or not, for as long as the client's
    connection takes them; it sends the client nothing else. *)
Theorem upstream_leg_forwards_in_order incoming w :
  to_client (wire (proxy_azure_to_client json_loads incoming w))
  = (to_client (wire w) ++ take (client_left w) incoming)%list.
Proof.
  unfold proxy_azure_to_client. revert w.
  induction incoming as [|message rest IH]; intros w.
  - simpl. by rewrite take_nil, app_nil_r.
  - cbn [for_each]. unfold mbind, M_bind.
    pose proof (azure_to_client_step_client message w) as Hstep.
    destruct (client_left w) as [|n].
    + destruct Hstep as (e & w' & -> & Hw). simpl. by rewrite Hw, app_nil_r.
    + destruct Hstep as (w' & -> & Hw & Hl).
      rewrite IH, Hw, Hl. simpl. by rewrite <- app_assoc.
Qed.

(** X11. A function call whose non-empty [name] is a list or a dict is not
    handled: [execute_tool] raises on the unhashable name, the interceptor
    returns [False] with nothing sent to Azure, and the frame only goes on
    to the client. *)
Theorem list_or_dict_name_not_handled message d call_id name w :
  json_loads message = Ok (JDict d) ->
  Py.assoc d "type" = Some (JStr TRIGGER) ->
  Py.assoc d "call_id" = Some call_id -> Py.truthy call_id = true ->
  Py.assoc d "name" = Some name -> Py.truthy name = true ->
  Py.str_of_hashable name = None ->
  try_handle_function_call json_loads message w = (Ok false, w)
  /\ azure_to_client_step json_loads (Text message) w
     = ws_send Client (Text message) w.
Proof.
  intros Hloads Htype Hcid Tcid Hname Tname Hhash.
  assert (Hcall : try_handle_function_call json_loads message w = (Ok false, w))
    by (by apply (unhashable_name_passes_through json_loads message d call_id name)).
  split; [exact Hcall|].
  unfold azure_to_client_step, mbind, M_bind. by rewrite Hcall.
Qed.

(** X10. When the connection to Azure takes fewer than the two frames of an
    injection, [try_handle_function_call] still returns [False] without
    raising: what was sent is the start of the pair (possibly the
    item-creation frame alone) and the connection is then closed. *)
Theorem injection_cut_short message d call_id name output w :
  json_loads message = Ok (JDict d) ->
  Py.assoc d "type" = Some (JStr TRIGGER) ->
  Py.assoc d "call_id" = Some call_id -> Py.truthy call_id = true ->
  Py.assoc d "name" = Some name -> Py.truthy name = true ->
  Weather.execute_tool json_loads name (default (JStr "{}") (Py.assoc d "arguments"))
    = Ok output ->
  (azure_left w < 2)%nat ->
  try_handle_function_call json_loads message w
  = (Ok false,
     World (sessions w) (user_connections w) (user_requests w)
       (wire w ++ take (azure_left w)
          [ Sent Azure (Text (Json.dumps (item_create call_id output)));
            Sent Azure (Text (Json.dumps response_create)) ])
       0 (client_left w)).
Proof.
  intros Hloads Htype Hcid Tcid Hname Tname Hrun Hleft.
  unfold try_handle_function_call, try_except.
  rewrite (try_block_on_trigger json_loads message d w Hloads Htype).
  rewrite Hcid, Hname. cbn [from_option id]. cbn zeta.
  rewrite Tcid, Tname. cbn [negb orb]. rewrite Hrun.
  unfold mbind, M_bind, send_function_result, mbind, M_bind, ws_send.
  destruct w as [ss uc ur wr al cl]. cbn [azure_left] in *.
  destruct al as [|[|al]]; [| |lia].
  - simpl. by rewrite app_nil_r.
  - reflexivity.
Qed.

(** X12. The client leg of a session that is no longer in the registry (the
    reaper removed it): bytes frames are still forwarded, the first str
    frame is forwarded too, and then the leg stops, because the count can
    no longer be incremented; the registry is not touched. *)
Theorem client_leg_without_session incoming sid w :
  sessions w !! sid = None ->
  (length (through_first_text incoming) <= azure_left w)%nat ->
  wire (proxy_client_to_azure incoming sid w)
    = (wire w ++ (Sent Azure <$> through_first_text incoming))%list
  /\ sessions (proxy_client_to_azure incoming sid w) = sessions w.
Proof.
  unfold proxy_client_to_azure. revert w.
  induction incoming as [|[m|b] rest IH]; intros w Hgone Hleft.
  - simpl. by rewrite app_nil_r.
  - cbn [for_each through_first_text] in *. simpl in Hleft.
    unfold mbind, M_bind, client_to_azure_step, mbind, M_bind, ws_send,
      bump_message_count.
    destruct (azure_left w) as [|n]; [lia|].
    cbn [sessions]. by rewrite Hgone.
  - cbn [for_each through_first_text] in *. simpl in Hleft.
    destruct (azure_left w) as [|n] eqn:El; [lia|].
    set (w1 := World (sessions w) (user_connections w) (user_requests w)
                 (wire w ++ [Sent Azure (Binary b)]) n (client_left w)).
    assert (Hstep : client_to_azure_step sid (Binary b) w = (Ok tt, w1))
      by (unfold client_to_azure_step, ws_send; by rewrite El).
    unfold mbind, M_bind. rewrite Hstep.
    destruct (IH w1) as [Hw Hs]; [done|simpl; lia|].
    rewrite Hw, Hs. subst w1. simpl. by rewrite <- app_assoc.
Qed.

(** X23. The client leg of a session in the registry, on a connection to
    Azure that takes all the frames: Azure receives every frame of the
    client, unchanged and in the client's order, and the session has
    counted the str frames among them. *)
Theorem client_leg_forwards_all incoming sid w s :
  sessions w !! sid = Some s ->
  (length incoming <= azure_left w)%nat ->
  wire (proxy_client_to_azure incoming sid w)
    = (wire w ++ (Sent Azure <$> incoming))%list
  /\ sessions (proxy_client_to_azure incoming sid w)
     = <[sid := with_message_count s
                  (message_count s + Z.of_nat (count_text incoming))]> (sessions w).
Proof.
  unfold proxy_client_to_azure. revert w s.
  induction incoming as [|[m|b] rest IH]; intros w s Hs Hleft.
  - simpl. rewrite app_nil_r, Z.add_0_r, with_message_count_same.
    by rewrite insert_id.
  - cbn [for_each length] in *.
    destruct (azure_left w) as [|n] eqn:El; [lia|].
    set (w1 := World (<[sid := with_message_count s (message_count s + 1)]> (sessions w))
                 (user_connections w) (user_requests w)
                 (wire w ++ [Sent Azure (Text m)]) n (client_left w)).
    assert (Hstep : client_to_azure_step sid (Text m) w = (Ok tt, w1)).
    { unfold client_to_azure_step, mbind, M_bind, ws_send, bump_message_count.
      rewrite El. cbn [sessions]. by rewrite Hs. }
    unfold mbind, M_bind. rewrite Hstep.
    destruct (IH w1 (with_message_count s (message_count s + 1))) as [Hw Hm];
      [subst w1; cbn [sessions]; apply lookup_insert_eq|subst w1; simpl; lia|].
    rewrite Hw, Hm. subst w1.
    cbn [wire sessions fmap list_fmap count_text
         with_message_count message_count user_id mode created_at azure_ws
         client_ws agent_session].
    rewrite <- app_assoc, insert_insert_eq. split; [done|]. do 2 f_equal. lia.
  - cbn [for_each length] in *.
    destruct (azure_left w) as [|n] eqn:El; [lia|].
    set (w1 := World (sessions w) (user_connections w) (user_requests w)
                 (wire w ++ [Sent Azure (Binary b)]) n (client_left w)).
    assert (Hstep : client_to_azure_step sid (Binary b) w = (Ok tt, w1))
      by (unfold client_to_azure_step, ws_send; by rewrite El).
    unfold mbind, M_bind. rewrite Hstep.
    destruct (IH w1 s) as [Hw Hm]; [done|subst w1; simpl; lia|].
    rewrite Hw, Hm. subst w1. cbn [wire sessions fmap list_fmap count_text].
    by rewrite <- app_assoc.
Qed.

End RelayEdges.

(** ** The mode of a connection *)

Section ModeProperties.

Variable parse_qs : string -> list (string * (string * list string)).

(** X8. Whatever the path and the query say, the mode is ["voice"] or
    ["text"], so the router never reaches its "Invalid mode" branch; a
    path without a query, and a query without a usable [mode], give
    ["voice"]. *)
Theorem mode_is_voice_or_text (path : string) :
  (extract_mode parse_qs path = "voice" \/ extract_mode parse_qs path = "text")
  /\ route (extract_mode parse_qs path) <> InvalidMode
  /\ (PyStr.contains path "?" = false -> extract_mode parse_qs path = "voice")
  /\ (lookup_param (parse_qs (after_first "?"%char path)) "mode" = None ->
      extract_mode parse_qs path = "voice").
Proof.
  assert (Hmode : extract_mode parse_qs path = "voice"
                  \/ extract_mode parse_qs path = "text").
  { unfold extract_mode. destruct (PyStr.contains path "?"); [|by left].
    destruct (lookup_param _ "mode") as [[first others]|]; [|by left].
    destruct (String.eqb_spec first "voice") as [->|_]; [by left|].
    destruct (String.eqb_spec first "text") as [->|_]; [by right|by left]. }
  split; [exact Hmode|]. split; [|split].
  - by destruct Hmode as [-> | ->].
  - intros Hq. unfold extract_mode. by rewrite Hq.
  - intros Hp. unfold extract_mode. rewrite Hp.
    by destruct (PyStr.contains path "?").
Qed.

End ModeProperties.

(** ** The further properties on concrete states *)



Example fourth_connection_turned_away :
  fst (accept_connection (Request (Some "Bearer alice")) 4 "voice" "" "s-4"
         3000000 3000000 capped)
  = Closed 1008 "Maximum 3 concurrent connections exceeded".
Proof. vm_compute. reflexivity. Qed.




(** At 3601.5 seconds the sessions created at 0 and at 1 second are stale
    and the one created at 2 seconds is not. *)
Example reaper_sweep :
  dom (sessions (periodic_cleanup 3601500000 capped)) = {[ "s-3" ]}
  /\ conns (periodic_cleanup 3601500000 capped) "alice" = {[ "s-3" ]}.
Proof. split; vm_compute; reflexivity. Qed.

Lemma reaper_removes_stale_witness :
  sessions (cleanup_all (reverse (stale_sessions 3601500000 capped)) capped)
  = filter (fun kv => ~ is_stale 3601500000 kv.2) (sessions capped).
Proof.
  apply (reaper_removes_stale 3601500000 capped
           (reverse (stale_sessions 3601500000 capped))).
  apply reverse_Permutation.
Defined.

Lemma connection_leaves_no_session_witness :
  sessions (finish_connection (Serving "s-1")
     (proxy_client_to_azure [Text "a"; Binary [Byte.x52]] "s-1"
        (snd (accept_connection (Request (Some "Bearer alice")) 1 "voice" ""
                "s-1" 0 0 empty_world))))
  = sessions empty_world.
Proof.
  apply (connection_leaves_no_session (Request (Some "Bearer alice")) 1 "voice" ""
           "s-1" 0 0 [Text "a"; Binary [Byte.x52]] empty_world "s-1").
  - apply reachable_consistent, reach_empty.
  - reflexivity.
  - vm_compute. reflexivity.
Defined.

Lemma list_or_dict_name_not_handled_witness :
  try_handle_function_call Decoder.loads call_with_list_name voice_relay
    = (Ok false, voice_relay)
  /\ azure_to_client_step Decoder.loads (Text call_with_list_name) voice_relay
     = ws_send Client (Text call_with_list_name) voice_relay.
Proof.
  apply (list_or_dict_name_not_handled Decoder.loads call_with_list_name
           call_with_list_name_fields (JStr "call_2") (JList [JStr "get_weather"])
           voice_relay); reflexivity.
Defined.

Lemma injection_cut_short_witness :
  try_handle_function_call Decoder.loads weather_call closing_relay
  = (Ok false,
     World (sessions closing_relay) (user_connections closing_relay)
       (user_requests closing_relay)
       (wire closing_relay ++ take (azure_left closing_relay)
          [ Sent Azure (Text (Json.dumps
              (item_create (JStr "call_1") (Json.dumps paris_weather))));
            Sent Azure (Text (Json.dumps response_create)) ])
       0 (client_left closing_relay)).
Proof.
  apply (injection_cut_short Decoder.loads weather_call weather_call_fields
           (JStr "call_1") (JStr "get_weather") (Json.dumps paris_weather)
           closing_relay); try reflexivity; vm_compute; reflexivity.
Defined.

Example injection_cut_short_wire :
  wire (snd (azure_to_client_step Decoder.loads (Text weather_call) closing_relay))
  = [ Sent Azure (Text (Json.dumps
        (item_create (JStr "call_1") (Json.dumps paris_weather))));
      Sent Client (Text weather_call) ].
Proof. vm_compute. reflexivity. Qed.

Lemma client_leg_without_session_witness :
  wire (proxy_client_to_azure
          [Binary [Byte.x52]; Text "a"; Binary [Byte.x49]; Text "b"] "s-1"
          orphaned_relay)
    = (wire orphaned_relay
       ++ (Sent Azure <$> through_first_text
             [Binary [Byte.x52]; Text "a"; Binary [Byte.x49]; Text "b"]))%list
  /\ sessions (proxy_client_to_azure
                 [Binary [Byte.x52]; Text "a"; Binary [Byte.x49]; Text "b"] "s-1"
                 orphaned_relay)
     = sessions orphaned_relay.
Proof.
  apply (client_leg_without_session
           [Binary [Byte.x52]; Text "a"; Binary [Byte.x49]; Text "b"] "s-1"
           orphaned_relay).
  - reflexivity.
  - vm_compute. lia.
Defined.

Example upstream_leg_on_three_frames :
  to_client (wire (proxy_azure_to_client Decoder.loads
                     [Text session_updated; Text weather_call; Binary [Byte.x52]]
                     voice_relay))
  = [Text session_updated; Text weather_call; Binary [Byte.x52]].
Proof. vm_compute. reflexivity. Qed.

Example modes_of_paths :
  extract_mode two_queries "/" = "voice"
  /\ extract_mode two_queries "/?mode=text" = "text"
  /\ extract_mode two_queries "/?mode=video" = "voice"
  /\ extract_mode two_queries "/?other" = "voice".
Proof. repeat split. Qed.

Example conversions :
  Weather.celsius_to_fahrenheit 0 = 32
  /\ Weather.celsius_to_fahrenheit (-40) = -40
  /\ Weather.celsius_to_fahrenheit 8 = 46
  /\ Weather.celsius_to_fahrenheit (-1) = 30.
Proof. repeat split. Qed.

(** ** Text mode *)

Section TextModeProperties.

Variable json_loads : string -> result json.
Variable agent_reply : nat -> json -> string.
Variable slice_of_dict : exn.

Lemma text_try_on_message sid i message d w :
  json_loads message = Ok (JDict d) -> is_text_message d ->
  text_message_try json_loads agent_reply slice_of_dict sid i message w
  = if negb (Py.truthy (user_message_of d)) then (Ok tt, w)
    else (lift (slice_check slice_of_dict (user_message_of d)) ;;
          ws_send Client (text_response (agent_reply i (user_message_of d))) ;;
          bump_message_count sid) w.
Proof.
  intros Hloads Htype.
  unfold text_message_try, mbind, M_bind, lift.
  rewrite Hloads, get_dict.
  assert (Hty : Py.eq_str (default JNull (Py.assoc d "type")) "text_message"
                || Py.eq_str (default JNull (Py.assoc d "type")) "text.message" = true).
  { destruct Htype as [-> | ->]; reflexivity. }
  rewrite Hty, !get_dict. unfold user_message_of.
  destruct (Py.truthy (default (JStr "") (Py.assoc d "content"))) eqn:Hc.
  - unfold mret, M_ret. rewrite Hc. by destruct (negb _).
  - by destruct (negb _).
Qed.

Lemma text_step_answered sid i message um w s :
  asks json_loads message um ->
  (1 <= client_left w)%nat -> sessions w !! sid = Some s ->
  text_mode_step json_loads agent_reply slice_of_dict sid i (Text message) w
  = (Ok tt,
     World (<[sid := with_message_count s (message_count s + 1)]> (sessions w))
           (user_connections w) (user_requests w)
           (wire w ++ [Sent Client (text_response (agent_reply i (JStr um)))])
           (azure_left w) (client_left w - 1)).
Proof.
  intros (Hum & d & Hloads & Htype & Hmsg) Hclient Hs.
  unfold text_mode_step, try_except.
  rewrite (text_try_on_message sid i message d w Hloads Htype), Hmsg.
  cbn [Py.truthy]. apply String.eqb_neq in Hum. rewrite Hum. cbn [negb].
  unfold mbind, M_bind, lift. cbn [slice_check].
  rewrite ws_send_client by lia.
  unfold bump_message_count. cbn [sessions]. by rewrite Hs.
Qed.

(** X17. A text message with a non-empty str gets exactly one frame back,
    the text response with what the agent returned, and counts once. *)
Theorem text_message_answered sid i message um w s :
  asks json_loads message um ->
  (1 <= client_left w)%nat -> sessions w !! sid = Some s ->
  text_mode_step json_loads agent_reply slice_of_dict sid i (Text message) w
  = (Ok tt,
     World (<[sid := with_message_count s (message_count s + 1)]> (sessions w))
           (user_connections w) (user_requests w)
           (wire w ++ [Sent Client (text_response (agent_reply i (JStr um)))])
           (azure_left w) (client_left w - 1)).
Proof. apply text_step_answered. Qed.

(** X18. A text that does not decode is answered with one error frame; its
    text is "Invalid message format" for a [JSONDecodeError] and [str(e)]
    for any other exception. The loop goes on and nothing else changes. *)
Theorem text_frame_error_reported sid i message e w :
  json_loads message = Raise e ->
  (1 <= client_left w)%nat ->
  text_mode_step json_loads agent_reply slice_of_dict sid i (Text message) w
  = (Ok tt,
     World (sessions w) (user_connections w) (user_requests w)
           (wire w ++ [Sent Client (error_frame
              (match exn_cls e with
               | JSONDecodeError => "Invalid message format"
               | _ => exn_str e
               end))])
           (azure_left w) (client_left w - 1)).
Proof.
  intros Hloads Hclient.
  unfold text_mode_step, try_except, text_message_try, mbind, M_bind, lift.
  rewrite Hloads. unfold text_message_except.
  destruct (exn_cls e); by rewrite ws_send_client by lia.
Qed.

(** X19. Frames the loop passes over without an answer and without a change of
    state: bytes frames, objects of another type, and text messages whose
    message is empty. *)
Theorem text_frame_ignored sid i fr w :
  match fr with
  | Binary _ => True
  | Text message =>
      exists d, json_loads message = Ok (JDict d)
                /\ ((Py.assoc d "type" <> Some (JStr "text_message")
                     /\ Py.assoc d "type" <> Some (JStr "text.message"))
                    \/ (is_text_message d /\ Py.truthy (user_message_of d) = false))
  end ->
  text_mode_step json_loads agent_reply slice_of_dict sid i fr w = (Ok tt, w).
Proof.
  destruct fr as [message|b]; [|done].
  intros (d & Hloads & [[H1 H2]|[Htype Hempty]]).
  - unfold text_mode_step, try_except, text_message_try, mbind, M_bind, lift.
    rewrite Hloads, get_dict.
    destruct (Py.eq_str _ "text_message") eqn:E1.
    { apply eq_str_true in E1. destruct (Py.assoc d "type"); simpl in E1; congruence. }
    destruct (Py.eq_str _ "text.message") eqn:E2; [|done].
    apply eq_str_true in E2. destruct (Py.assoc d "type"); simpl in E2; congruence.
  - unfold text_mode_step, try_except.
    rewrite (text_try_on_message sid i message d w Hloads Htype), Hempty. done.
Qed.

(** X20. When the session is gone from the registry (the reaper removed it), a
    text message is still answered, and the failed count is then reported
    to the client as a second frame: an error whose text is the session id
    in quotes. *)
Theorem text_message_after_reaping sid i message um w :
  asks json_loads message um ->
  (2 <= client_left w)%nat -> sessions w !! sid = None ->
  text_mode_step json_loads agent_reply slice_of_dict sid i (Text message) w
  = (Ok tt,
     World (sessions w) (user_connections w) (user_requests w)
           (wire w ++ [Sent Client (text_response (agent_reply i (JStr um)));
                       Sent Client (error_frame ("'" ++ sid ++ "'"))])
           (azure_left w) (client_left w - 2)).
Proof.
  intros (Hum & d & Hloads & Htype & Hmsg) Hclient Hs.
  unfold text_mode_step, try_except.
  rewrite (text_try_on_message sid i message d w Hloads Htype), Hmsg.
  cbn [Py.truthy]. apply String.eqb_neq in Hum. rewrite Hum. cbn [negb].
  unfold mbind, M_bind, lift. cbn [slice_check].
  rewrite ws_send_client by lia.
  unfold bump_message_count. cbn [sessions]. rewrite Hs.
  unfold text_message_except. cbn [exn_cls exn_str].
  rewrite ws_send_client by (cbn [client_left]; lia).
  cbn [sessions user_connections user_requests wire azure_left client_left].
  rewrite <- app_assoc. do 2 f_equal. lia.
Qed.

Lemma text_mode_loop_answers sid i messages ums w s :
  Forall2 (asks json_loads) messages ums ->
  sessions w !! sid = Some s ->
  (length messages <= client_left w)%nat ->
  text_mode_loop json_loads agent_reply slice_of_dict sid i (Text <$> messages) w
  = (Ok tt,
     World (<[sid := with_message_count s
                       (message_count s + Z.of_nat (length messages))]> (sessions w))
           (user_connections w) (user_requests w)
           (wire w ++ responses agent_reply i ums)
           (azure_left w) (client_left w - length messages)).
Proof.
  intros Hasks. revert i w s.
  induction Hasks as [|message um messages ums Hask _ IH]; intros i w s Hs Hleft.
  - simpl. rewrite app_nil_r, Z.add_0_r, with_message_count_same, Nat.sub_0_r.
    rewrite insert_id by done. by destruct w.
  - cbn [fmap list_fmap text_mode_loop responses length] in *.
    unfold mbind, M_bind.
    rewrite (text_step_answered sid i message um w s Hask) by (done || lia).
    rewrite (IH (S i) _ (with_message_count s (message_count s + 1)))
      by (cbn [sessions client_left]; (apply lookup_insert_eq || lia)).
    cbn [sessions user_connections user_requests wire azure_left client_left
         with_message_count message_count user_id mode created_at azure_ws
         client_ws agent_session].
    rewrite insert_insert_eq, <- app_assoc. simpl. do 2 f_equal.
    + do 2 f_equal. lia.
    + lia.
Qed.

(** X21. A text conversation from its start: the client is told that the
    session is created and then gets one text response per message, in the
    order of the messages, each with what the agent returned for it; the
    session holds the agent session and has counted every message. *)
Theorem text_conversation sid handle messages ums w s :
  Forall2 (asks json_loads) messages ums ->
  sessions w !! sid = Some s ->
  (S (length messages) <= client_left w)%nat ->
  wire (handle_text_mode json_loads agent_reply slice_of_dict (Some (Ok handle))
          (Text <$> messages) sid w)
    = (wire w ++ Sent Client (session_created sid) :: responses agent_reply 0 ums)%list
  /\ sessions (handle_text_mode json_loads agent_reply slice_of_dict
                 (Some (Ok handle)) (Text <$> messages) sid w)
    = <[sid := Session (user_id s) (mode s) (created_at s) (azure_ws s) (client_ws s)
                 (message_count s + Z.of_nat (length messages)) (Some handle)]>
        (sessions w).
Proof.
  intros Hasks Hs Hleft.
  unfold handle_text_mode, mbind, M_bind, lift, bind_agent. rewrite Hs.
  unfold set_sessions.
  rewrite ws_send_client by (cbn [client_left]; lia).
  cbn [sessions user_connections user_requests wire azure_left client_left].
  set (s1 := Session (user_id s) (mode s) (created_at s) (azure_ws s)
               (client_ws s) (message_count s) (Some handle)).
  rewrite (text_mode_loop_answers sid 0 messages ums _ s1 Hasks)
    by (cbn [sessions client_left]; (apply lookup_insert_eq || lia)).
  cbn [snd sessions wire]. split.
  - by rewrite <- app_assoc.
  - by rewrite insert_insert_eq.
Qed.

End TextModeProperties.

(** ** Text mode on concrete frames *)

Lemma hello_asks : asks Decoder.loads hello "hello".
Proof.
  split; [discriminate|].
  exists [("type", JStr "text_message"); ("content", JStr "hello")].
  split; [vm_compute; reflexivity|]. split; [by left|reflexivity].
Defined.

Lemma weather_question_asks : asks Decoder.loads weather_question "weather?".
Proof.
  split; [discriminate|].
  exists [("type", JStr "text.message"); ("content", JStr ""); ("text", JStr "weather?")].
  split; [vm_compute; reflexivity|]. split; [by right|reflexivity].
Defined.

Lemma text_message_answered_witness :
  text_mode_step Decoder.loads parrot slice_error "t-1" 0 (Text hello) text_relay
  = (Ok tt,
     World (<["t-1" := with_message_count (Session "bob" "text" 0 None None 0 None)
                         (0 + 1)]> (sessions text_relay))
           (user_connections text_relay) (user_requests text_relay)
           (wire text_relay ++ [Sent Client (text_response (parrot 0 (JStr "hello")))])
           (azure_left text_relay) (client_left text_relay - 1)).
Proof.
  apply (text_message_answered Decoder.loads parrot slice_error "t-1" 0 hello "hello"
           text_relay (Session "bob" "text" 0 None None 0 None) hello_asks).
  - vm_compute. lia.
  - reflexivity.
Defined.

Lemma text_frame_error_reported_witness :
  text_mode_step Decoder.loads parrot slice_error "t-1" 0 (Text "hello") text_relay
  = (Ok tt,
     World (sessions text_relay) (user_connections text_relay)
           (user_requests text_relay)
           (wire text_relay ++ [Sent Client (error_frame "Invalid message format")])
           (azure_left text_relay) (client_left text_relay - 1)).
Proof.
  apply (text_frame_error_reported Decoder.loads parrot slice_error "t-1" 0 "hello"
           (Exc JSONDecodeError "Expecting value") text_relay).
  - vm_compute. reflexivity.
  - vm_compute. lia.
Defined.

Lemma text_frame_ignored_witness :
  text_mode_step Decoder.loads parrot slice_error "t-1" 0 (Text session_updated)
    text_relay
  = (Ok tt, text_relay).
Proof.
  apply (text_frame_ignored Decoder.loads parrot slice_error "t-1" 0
           (Text session_updated) text_relay).
  exists [("type", JStr "session.updated")].
  split; [vm_compute; reflexivity|]. left. split; discriminate.
Defined.

Lemma text_message_after_reaping_witness :
  text_mode_step Decoder.loads parrot slice_error "t-1" 0 (Text hello)
    (cleanup_session "t-1" text_relay)
  = (Ok tt,
     World (sessions (cleanup_session "t-1" text_relay))
           (user_connections (cleanup_session "t-1" text_relay))
           (user_requests (cleanup_session "t-1" text_relay))
           (wire (cleanup_session "t-1" text_relay)
            ++ [Sent Client (text_response (parrot 0 (JStr "hello")));
                Sent Client (error_frame "'t-1'")])
           (azure_left (cleanup_session "t-1" text_relay))
           (client_left (cleanup_session "t-1" text_relay) - 2)).
Proof.
  apply (text_message_after_reaping Decoder.loads parrot slice_error "t-1" 0 hello
           "hello" (cleanup_session "t-1" text_relay) hello_asks).
  - vm_compute. lia.
  - reflexivity.
Defined.

Lemma text_conversation_witness :
  wire (handle_text_mode Decoder.loads parrot slice_error (Some (Ok 7%nat))
          (Text <$> [hello; weather_question]) "t-1" text_relay)
    = (wire text_relay
       ++ Sent Client (session_created "t-1")
          :: responses parrot 0 ["hello"; "weather?"])%list
  /\ sessions (handle_text_mode Decoder.loads parrot slice_error (Some (Ok 7%nat))
                 (Text <$> [hello; weather_question]) "t-1" text_relay)
    = <["t-1" := Session "bob" "text" 0 None None
                   (0 + Z.of_nat (length [hello; weather_question])) (Some 7%nat)]>
        (sessions text_relay).
Proof.
  apply (text_conversation Decoder.loads parrot slice_error "t-1" 7
           [hello; weather_question] ["hello"; "weather?"] text_relay
           (Session "bob" "text" 0 None None 0 None)).
  - constructor; [apply hello_asks|].
    constructor; [apply weather_question_asks|constructor].
  - reflexivity.
  - vm_compute. lia.
Defined.

Example text_conversation_wire :
  to_client (wire (handle_text_mode Decoder.loads parrot slice_error (Some (Ok 7%nat))
                     [Text hello; Binary [Byte.x52]; Text "hello";
                      Text weather_question] "t-1" text_relay))
  = [ session_created "t-1";
      text_response "You said: hello";
      error_frame "Invalid message format";
      text_response "You said: weather?" ].
Proof. vm_compute. reflexivity. Qed.

Lemma anonymous_connection_accepted_witness :
  fst (accept_connection (Request None) 5 "voice" "9f1c2ab47d3e4c0a8b6f5e4d3c2b1a09"
         "s-5" 3000000 3000000 crowded)
  = Serving "s-5".
Proof.
  apply (anonymous_connection_accepted (Request None) 5 "voice"
           "9f1c2ab47d3e4c0a8b6f5e4d3c2b1a09" "s-5" 3000000 3000000 crowded).
  - by right.
  - vm_compute. reflexivity.
  - vm_compute. reflexivity.
Defined.

Lemma client_leg_forwards_all_witness :
  wire (proxy_client_to_azure [Text "a"; Binary [Byte.x52]; Text "b"] "s-1" voice_relay)
    = (wire voice_relay
       ++ (Sent Azure <$> [Text "a"; Binary [Byte.x52]; Text "b"]))%list
  /\ sessions (proxy_client_to_azure [Text "a"; Binary [Byte.x52]; Text "b"] "s-1"
                 voice_relay)
     = <["s-1" := with_message_count (Session "alice" "voice" 0 None None 0 None)
                    (0 + Z.of_nat (count_text [Text "a"; Binary [Byte.x52]; Text "b"]))]>
         (sessions voice_relay).
Proof.
  apply (client_leg_forwards_all [Text "a"; Binary [Byte.x52]; Text "b"] "s-1"
           voice_relay (Session "alice" "voice" 0 None None 0 None)).
  - reflexivity.
  - vm_compute. lia.
Defined.

Lemma get_weather_defaults_witness :
  Weather.get_weather Decoder.loads (JStr "{}")
  = Json.dumps (JDict
      [ ("city", JStr "Unknown"); ("temperature", JInt 20);
        ("unit", JStr (PyStr.deg ++ "C")); ("condition", JStr "Moderate");
        ("humidity", JStr "50%"); ("wind", JStr "10 km/h");
        ("description", JStr ("Weather data for Unknown: Temperature is 20"
           ++ PyStr.deg ++ "C with moderate conditions.")) ]).
Proof.
  apply (proj2 (proj2 (get_weather_defaults Decoder.loads "{}" []
                         ltac:(vm_compute; reflexivity)))).
  reflexivity.
Defined.
